(** * Resource Allocation Agent: a shallow embedding of
      [src/ResourceAllocationAgent.ts] and the properties of its
      arbitration core.

    The agent is a class whose methods read [this.state], replace it with
    [this.setState] and call an external notifier.  It is embedded as a small
    state-and-trace monad: a computation takes the MCP environment and the
    current store and yields a completion (a value or a thrown error), the
    store it leaves behind and the events it emitted, in program order.

    Modelling conventions.
    - [this.setState s] replaces the store at once, so a later read of
      [this.state] sees [s].  The source depends on this: [handleChat] spreads
      [this.state] right after [requestResource] has called [setState].
    - Strings the agent builds with [new Date().toISOString()]
      ([assignedAt], [requestedAt]) are kept as the millisecond time stamp
      they render; [new Date(x).getTime()] on them is the identity.
    - [dueReturnAt] comes from the caller and stays a string; parsing it is a
      parameter ([dateParse], [None] for an invalid date).
    - [generateId()], [Date.now()] and [todayDateString()] read the clock and
      the random source; their results are arguments of the operation.
    - JS numbers that count things are [Z]; the one quotient,
      [allocated / total], is an exact rational. *)

From stdpp Require Import base strings list gmap fin_maps sorting pretty.
From Stdlib Require Import ZArith QArith.

Close Scope Q_scope.
Open Scope string_scope.
Open Scope list_scope.

(** ** Types *)

Inductive ResourceType := equipment | license | parking.

Inductive Status := active | returned.

Module Resource.
Record t := mk {
  id : string;
  type : ResourceType;
  name : string;
  quantity : Z;
  metadata : option (gmap string string) }.
End Resource.

Module Assignment.
Record t := mk {
  id : string;
  resourceId : string;
  userId : string;
  assignedAt : Z;
  dueReturnAt : option string;
  status : Status }.
End Assignment.

Module WaitlistEntry.
Record t := mk {
  id : string;
  resourceId : string;
  userId : string;
  requestedAt : Z;
  priority : option Z }.
End WaitlistEntry.

Module UtilizationLogEntry.
Record t := mk {
  resourceId : string;
  date : string;
  allocated : Z;
  total : Z }.
End UtilizationLogEntry.

Inductive Role := user | assistant.

Record ConversationMessage := { role : Role; content : string }.

Record ResourceAllocationState := mkState {
  resources : list Resource.t;
  assignments : list Assignment.t;
  waitlist : list WaitlistEntry.t;
  utilizationLog : list UtilizationLogEntry.t;
  notifications : gmap string (list string);
  conversationByUser : gmap string (list ConversationMessage) }.

#[global] Instance ResourceType_eq_dec : EqDecision ResourceType.
Proof. solve_decision. Defined.
#[global] Instance Status_eq_dec : EqDecision Status.
Proof. solve_decision. Defined.
#[global] Instance Resource_eq_dec : EqDecision Resource.t.
Proof. solve_decision. Defined.
#[global] Instance Assignment_eq_dec : EqDecision Assignment.t.
Proof. solve_decision. Defined.
#[global] Instance WaitlistEntry_eq_dec : EqDecision WaitlistEntry.t.
Proof. solve_decision. Defined.
#[global] Instance UtilizationLogEntry_eq_dec : EqDecision UtilizationLogEntry.t.
Proof. solve_decision. Defined.

(** Object spread with one field replaced, [{ ...s, field }]. *)
Definition with_resources (s : ResourceAllocationState) (x : list Resource.t) :=
  mkState x (assignments s) (waitlist s) (utilizationLog s) (notifications s)
          (conversationByUser s).
Definition with_assignments (s : ResourceAllocationState) (x : list Assignment.t) :=
  mkState (resources s) x (waitlist s) (utilizationLog s) (notifications s)
          (conversationByUser s).
Definition with_waitlist (s : ResourceAllocationState) (x : list WaitlistEntry.t) :=
  mkState (resources s) (assignments s) x (utilizationLog s) (notifications s)
          (conversationByUser s).
Definition with_utilizationLog (s : ResourceAllocationState)
    (x : list UtilizationLogEntry.t) :=
  mkState (resources s) (assignments s) (waitlist s) x (notifications s)
          (conversationByUser s).
Definition with_notifications (s : ResourceAllocationState)
    (x : gmap string (list string)) :=
  mkState (resources s) (assignments s) (waitlist s) (utilizationLog s) x
          (conversationByUser s).

(** ** Constants *)

Definition REMINDER_HOURS_AHEAD : Z := 24.

Definition DEFAULT_RESOURCES : list Resource.t :=
  [ Resource.mk "P1" parking "Parking Spot 1" 1 (Some {[ "location" := "Lot A" ]});
    Resource.mk "P2" parking "Parking Spot 2" 1 (Some {[ "location" := "Lot A" ]});
    Resource.mk "L1" license "Adobe CC" 5 None;
    Resource.mk "E1" equipment "Projector" 2 None ].

Record NotifyConfig := {
  serverId : string;
  toolName : string;
  args : string -> string -> gmap string string }.

Definition MCP_NOTIFY_CONFIG : list NotifyConfig :=
  [ {| serverId := "slack"; toolName := "send_message";
       args := fun channel message =>
                 {[ "channel" := channel; "message" := message ]} |};
    {| serverId := "email"; toolName := "send_email";
       args := fun to body => {[ "to" := to; "body" := body ]} |} ].

(** ** The agent monad *)

(** What the MCP client answers: the registered servers, the connection
    state of each and whether a tool call resolves ([true]) or rejects. *)
Record Mcp := {
  listServers : list string;
  connectionState : string -> option string;
  callTool : string -> string -> gmap string string -> bool }.

Inductive Event :=
| EvSetState (s : ResourceAllocationState)
| EvCallTool (server tool : string) (arguments : gmap string string)
| EvConsoleError (text : string).

Inductive Completion (A : Type) :=
| Normal (a : A)
| Throw (error : string).
Arguments Normal {A} a.
Arguments Throw {A} error.

Record Run (A : Type) := mkRun {
  completion : Completion A;
  store : ResourceAllocationState;
  events : list Event }.
Arguments mkRun {A}.
Arguments completion {A}.
Arguments store {A}.
Arguments events {A}.

Definition Agent (A : Type) : Type := Mcp -> ResourceAllocationState -> Run A.

Definition ret {A} (a : A) : Agent A := fun _ s => mkRun (Normal a) s [].

Definition bind {A B} (m : Agent A) (k : A -> Agent B) : Agent B :=
  fun mcp s =>
    let r := m mcp s in
    match completion r with
    | Normal a =>
        let r' := k a mcp (store r) in
        mkRun (completion r') (store r') (events r ++ events r')
    | Throw e => mkRun (Throw e) (store r) (events r)
    end.

#[global] Instance Agent_ret : MRet Agent := @ret.
#[global] Instance Agent_bind : MBind Agent := fun A B k m => bind m k.

Definition throw {A} (e : string) : Agent A := fun _ s => mkRun (Throw e) s [].
Definition getState : Agent ResourceAllocationState :=
  fun _ s => mkRun (Normal s) s [].
Definition setState (s' : ResourceAllocationState) : Agent unit :=
  fun _ _ => mkRun (Normal tt) s' [EvSetState s'].
Definition getMcp : Agent Mcp := fun mcp s => mkRun (Normal mcp) s [].
Definition emit (e : Event) : Agent unit := fun _ s => mkRun (Normal tt) s [e].

(** ** Helpers *)

(** [Array.prototype.find]: the first element that satisfies the predicate. *)
Definition Array_find {A} (P : A -> Prop) `{forall x, Decision (P x)}
    (l : list A) : option A :=
  snd <$> list_find P l.

(** [Array.prototype.some]. *)
Definition Array_some {A} (P : A -> Prop) `{forall x, Decision (P x)}
    (l : list A) : bool :=
  bool_decide (Exists P l).

(** [Array.prototype.sort] with the comparator [key a - key b]: a stable
    ascending sort.  Insertion keeps an element in front of the equal keys
    that followed it in the input. *)
Fixpoint sort_insert {A} (key : A -> Z) (x : A) (l : list A) : list A :=
  match l with
  | [] => [x]
  | y :: l' =>
      if decide (key x <= key y)%Z then x :: y :: l'
      else y :: sort_insert key x l'
  end.

Definition Array_sort {A} (key : A -> Z) (l : list A) : list A :=
  foldr (sort_insert key) [] l.

Definition initialState : ResourceAllocationState :=
  mkState [] [] [] [] ∅ ∅.

Definition seedResourcesIfEmpty : Agent unit :=
  s ← getState;
  if decide (0 < length (resources s)) then mret tt
  else
    s ← getState;
    setState (with_resources s DEFAULT_RESOURCES).

(** ** Notification transport *)

(** The body of the [for] loop of [notifyViaMcp]: servers that are not
    connected are skipped, the first tool call that resolves ends the loop,
    a rejected call is logged and the next server is tried. *)
Fixpoint notifyLoop (userId message : string) (order : list NotifyConfig)
    : Agent unit :=
  match order with
  | [] => mret tt
  | c :: rest =>
      mcp ← getMcp;
      if decide (connectionState mcp (serverId c) = Some "ready") then
        emit (EvCallTool (serverId c) (toolName c) (args c userId message));;
        (if callTool mcp (serverId c) (toolName c) (args c userId message)
         then mret tt
         else
           emit (EvConsoleError
                   ("[ResourceAllocationAgent] MCP notify (" +:+ serverId c
                      +:+ ") failed:"));;
           notifyLoop userId message rest)
      else notifyLoop userId message rest
  end.

Definition notifyViaMcp (userId message : string)
    (preferServerId : option string) : Agent unit :=
  mcp ← getMcp;
  if decide (length (listServers mcp) = 0) then mret tt
  else
    let order :=
      if decide (preferServerId = Some "email")
      then reverse MCP_NOTIFY_CONFIG else MCP_NOTIFY_CONFIG in
    notifyLoop userId message order.

(** ** Read-only helpers over [this.state] *)

Definition activeAssignmentCount (s : ResourceAllocationState)
    (resourceId : string) : nat :=
  length (filter (fun a => Assignment.resourceId a = resourceId
                           ∧ Assignment.status a = active)
                 (assignments s)).

Definition getNextWaitlistEntry (s : ResourceAllocationState)
    (resourceId : string) : option WaitlistEntry.t :=
  head (Array_sort WaitlistEntry.requestedAt
          (filter (fun w => WaitlistEntry.resourceId w = resourceId)
                  (waitlist s))).

Definition appendNotification (notifications : gmap string (list string))
    (userId message : string) : gmap string (list string) :=
  let prev := default [] (notifications !! userId) in
  <[userId := prev ++ [message]]> notifications.

(** ** requestResource *)

Module RequestResult.
Record t := mk {
  ok : bool;
  message : string;
  assignmentId : option string;
  waitlistPosition : option Z }.
End RequestResult.

(** [newId] is what [generateId()] returns and [now] what [new Date()]
    reads in this call. *)
Definition requestResource (resourceId userId : string)
    (dueReturnAt : option string) (newId : string) (now : Z)
    : Agent RequestResult.t :=
  s ← getState;
  match Array_find (fun r => Resource.id r = resourceId) (resources s) with
  | None =>
      mret (RequestResult.mk false ("Unknown resource: " +:+ resourceId)
              None None)
  | Some resource =>
      s ← getState;
      let used := activeAssignmentCount s resourceId in
      if decide (Z.of_nat used < Resource.quantity resource)%Z then
        let assignment :=
          Assignment.mk newId resourceId userId now dueReturnAt active in
        s ← getState;
        setState (with_assignments s (assignments s ++ [assignment]));;
        mret (RequestResult.mk true
                ("Assigned " +:+ Resource.name resource +:+ " to you.")
                (Some (Assignment.id assignment)) None)
      else
        let waitlistEntry :=
          WaitlistEntry.mk newId resourceId userId now None in
        s ← getState;
        let waitlist' := waitlist s ++ [waitlistEntry] in
        s ← getState;
        setState (with_waitlist s waitlist');;
        s ← getState;
        let position :=
          (Z.of_nat
             (length (filter (fun w => WaitlistEntry.resourceId w = resourceId)
                             (waitlist s))) + 1)%Z in
        let waitlistMessage :=
          "You're #" +:+ pretty position +:+ " for " +:+ Resource.name resource
            +:+ ". We'll notify you when it's available." in
        notifyViaMcp userId waitlistMessage None;;
        mret (RequestResult.mk false
                ("No availability. You were added to the waitlist (position "
                   +:+ pretty position +:+ ").")
                None (Some position))
  end.

(** ** returnResource *)

Module ReturnResult.
Record t := mk {
  ok : bool;
  message : string;
  autoAssigned : option string }.
End ReturnResult.

Definition markReturned (a : Assignment.t) : Assignment.t :=
  Assignment.mk (Assignment.id a) (Assignment.resourceId a)
    (Assignment.userId a) (Assignment.assignedAt a) (Assignment.dueReturnAt a)
    returned.

(** [newId] and [now] are read only on the auto-assignment branch.  The
    non-null assertion on the catalog lookup is erased at run time: when the
    resource is not in the catalog, reading [resource.name] throws. *)
Definition returnResource (resourceId userId : string) (newId : string)
    (now : Z) : Agent ReturnResult.t :=
  s ← getState;
  match Array_find (fun a => Assignment.resourceId a = resourceId
                             ∧ Assignment.userId a = userId
                             ∧ Assignment.status a = active)
                   (assignments s) with
  | None =>
      mret (ReturnResult.mk false
              ("No active assignment found for " +:+ resourceId +:+ " and you.")
              None)
  | Some assignment =>
      s ← getState;
      let assignments' :=
        map (fun a => if decide (Assignment.id a = Assignment.id assignment)
                      then markReturned a else a)
            (assignments s) in
      s ← getState;
      let nextState := with_assignments s assignments' in
      s ← getState;
      match getNextWaitlistEntry s resourceId with
      | Some next =>
          s ← getState;
          match Array_find (fun r => Resource.id r = resourceId)
                           (resources s) with
          | None =>
              throw "TypeError: Cannot read properties of undefined (reading 'name')"
          | Some resource =>
              let newAssignment :=
                Assignment.mk newId resourceId (WaitlistEntry.userId next) now
                  None active in
              let msg := Resource.name resource +:+ " is now assigned to you." in
              let nextState' :=
                mkState (resources nextState)
                  (assignments nextState ++ [newAssignment])
                  (filter (fun w => WaitlistEntry.id w ≠ WaitlistEntry.id next)
                          (waitlist nextState))
                  (utilizationLog nextState)
                  (appendNotification (notifications nextState)
                     (WaitlistEntry.userId next) msg)
                  (conversationByUser nextState) in
              let autoAssignedUserId := WaitlistEntry.userId next in
              notifyViaMcp (WaitlistEntry.userId next) msg None;;
              setState nextState';;
              mret (ReturnResult.mk true
                      (if decide (autoAssignedUserId = "")
                       then "Returned successfully."
                       else "Returned. Next in line (" +:+ autoAssignedUserId
                              +:+ ") was auto-assigned.")
                      (Some autoAssignedUserId))
          end
      | None =>
          setState nextState;;
          mret (ReturnResult.mk true "Returned successfully." None)
      end
  end.

(** ** Queries *)

Definition listMyAssignments (userId : string) : Agent (list Assignment.t) :=
  s ← getState;
  mret (filter (fun a => Assignment.userId a = userId
                         ∧ Assignment.status a = active)
               (assignments s)).

(** Each resource comes with its [available] count. *)
Definition listResources (type : option ResourceType)
    : Agent (list (Resource.t * Z)) :=
  s ← getState;
  let list :=
    match type with
    | Some ty => filter (fun r => Resource.type r = ty) (resources s)
    | None => resources s
    end in
  mret (map (fun r =>
               (r, (Resource.quantity r
                    - Z.of_nat (activeAssignmentCount s (Resource.id r)))%Z))
            list).

Module UtilizationRecord.
Record t := mk {
  resourceId : string;
  date : string;
  allocated : Z;
  total : Z;
  utilization : Q }.
End UtilizationRecord.

(** [e.total > 0 ? e.allocated / e.total : 0] *)
Definition utilizationOf (e : UtilizationLogEntry.t) : Q :=
  if decide (0 < UtilizationLogEntry.total e)%Z
  then (inject_Z (UtilizationLogEntry.allocated e)
        / inject_Z (UtilizationLogEntry.total e))%Q
  else 0%Q.

(** [today] is what [todayDateString()] returns; it is read only for a bound
    that was not given.  An empty [resourceId] is falsy and filters nothing.
    Dates compare as strings. *)
Definition getUtilization (resourceId dateFrom dateTo : option string)
    (today : string) : Agent (list UtilizationRecord.t) :=
  let from := default today dateFrom in
  let to := default today dateTo in
  s ← getState;
  let log :=
    filter (fun e =>
              (resourceId = None ∨ resourceId = Some ""
               ∨ resourceId = Some (UtilizationLogEntry.resourceId e))
              ∧ String.leb from (UtilizationLogEntry.date e) = true
              ∧ String.leb (UtilizationLogEntry.date e) to = true)
           (utilizationLog s) in
  let byResource :=
    map (fun e =>
           UtilizationRecord.mk (UtilizationLogEntry.resourceId e)
             (UtilizationLogEntry.date e) (UtilizationLogEntry.allocated e)
             (UtilizationLogEntry.total e) (utilizationOf e))
        log in
  mret byResource.

Definition clearNotifications (userId : string) : Agent unit :=
  s ← getState;
  let notifications' := delete userId (notifications s) in
  s ← getState;
  setState (with_notifications s notifications').

(** ** The reminder sweep *)

Section Sweep.

(** [new Date(text).getTime()]; [None] stands for NaN (an invalid date). *)
Variable dateParse : string -> option Z.

(** [due > windowEnd || due < new Date(now)]; both comparisons are false
    on an invalid date. *)
Definition outsideWindow (now windowEnd : Z) (dueReturnAt : string) : bool :=
  match dateParse dueReturnAt with
  | Some due => bool_decide (windowEnd < due)%Z || bool_decide (due < now)%Z
  | None => false
  end.

Fixpoint remindLoop (now windowEnd : Z) (l : list Assignment.t)
    (notifications : gmap string (list string))
    : Agent (gmap string (list string)) :=
  match l with
  | [] => mret notifications
  | a :: rest =>
      match Assignment.status a, Assignment.dueReturnAt a with
      | active, Some dueReturnAt =>
          if decide (dueReturnAt = "") then
            remindLoop now windowEnd rest notifications
          else if outsideWindow now windowEnd dueReturnAt then
            remindLoop now windowEnd rest notifications
          else
            s ← getState;
            let resource :=
              Array_find (fun r => Resource.id r = Assignment.resourceId a)
                         (resources s) in
            let msg :=
              "Reminder: Please return "
                +:+ match resource with
                    | Some r => Resource.name r
                    | None => Assignment.resourceId a
                    end
                +:+ " by " +:+ String.substring 0 10 dueReturnAt +:+ "." in
            let notifications' :=
              appendNotification notifications (Assignment.userId a) msg in
            notifyViaMcp (Assignment.userId a) msg None;;
            remindLoop now windowEnd rest notifications'
      | _, _ => remindLoop now windowEnd rest notifications
      end
  end.

(** One turn of the snapshot loop: a resource already logged for [date] is
    skipped, otherwise its entry is pushed. *)
Definition logResource (s : ResourceAllocationState) (date : string)
    (utilizationLog : list UtilizationLogEntry.t) (r : Resource.t)
    : list UtilizationLogEntry.t :=
  let alreadyLogged :=
    Array_some (fun e => UtilizationLogEntry.resourceId e = Resource.id r
                         ∧ UtilizationLogEntry.date e = date)
               utilizationLog in
  if alreadyLogged then utilizationLog
  else utilizationLog
         ++ [UtilizationLogEntry.mk (Resource.id r) date
               (Z.of_nat (activeAssignmentCount s (Resource.id r)))
               (Resource.quantity r)].

(** [now] is [Date.now()] at entry, [today] is [todayDateString()] after
    the reminder loop. *)
Definition checkReturnReminders (now : Z) (today : string) : Agent unit :=
  let windowEnd := (now + REMINDER_HOURS_AHEAD * 60 * 60 * 1000)%Z in
  s ← getState;
  let notifications0 := notifications s in
  s ← getState;
  notifications' ← remindLoop now windowEnd (assignments s) notifications0;
  let date := today in
  s ← getState;
  let utilizationLog0 := utilizationLog s in
  s ← getState;
  let utilizationLog' :=
    foldl (logResource s date) utilizationLog0 (resources s) in
  s ← getState;
  setState (mkState (resources s) (assignments s) (waitlist s)
              utilizationLog' notifications' (conversationByUser s)).

(** ** Operations as a transition system *)

Inductive Op :=
| OpRequestResource (resourceId userId : string)
    (dueReturnAt : option string) (newId : string) (now : Z)
| OpReturnResource (resourceId userId : string) (newId : string) (now : Z)
| OpListMyAssignments (userId : string)
| OpListResources (type : option ResourceType)
| OpGetUtilization (resourceId dateFrom dateTo : option string)
    (today : string)
| OpClearNotifications (userId : string)
| OpCheckReturnReminders (now : Z) (today : string).

Definition exec (op : Op) : Agent unit :=
  match op with
  | OpRequestResource resourceId userId dueReturnAt newId now =>
      requestResource resourceId userId dueReturnAt newId now;; mret tt
  | OpReturnResource resourceId userId newId now =>
      returnResource resourceId userId newId now;; mret tt
  | OpListMyAssignments userId => listMyAssignments userId;; mret tt
  | OpListResources type => listResources type;; mret tt
  | OpGetUtilization resourceId dateFrom dateTo today =>
      getUtilization resourceId dateFrom dateTo today;; mret tt
  | OpClearNotifications userId => clearNotifications userId
  | OpCheckReturnReminders now today => checkReturnReminders now today
  end.

(** The store after one operation served under the given MCP
    environment; an operation that throws leaves the store as it was at
    the throw. *)
Definition step (s : ResourceAllocationState) (call : Mcp * Op)
    : ResourceAllocationState :=
  store (exec call.2 call.1 s).

Definition runOps (calls : list (Mcp * Op)) (s : ResourceAllocationState)
    : ResourceAllocationState :=
  foldl step s calls.

End Sweep.

(** An environment with no transport configured. *)
Definition noMcp : Mcp :=
  {| listServers := []; connectionState := fun _ => None;
     callTool := fun _ _ _ => false |}.

(** The state after [onStart] on a fresh instance. *)
Definition seededState : ResourceAllocationState :=
  store (seedResourcesIfEmpty noMcp initialState).

(** ** Conversation history *)




(** * Vocabulary of the statements *)

(** ** Runs and traces *)

(** The value a run completes with, if it does not throw. *)
Definition resultOf {A} (r : Run A) : option A :=
  match completion r with
  | Normal a => Some a
  | Throw _ => None
  end.

Definition isSetState (e : Event) : Prop :=
  match e with EvSetState _ => True | _ => False end.

#[global] Instance isSetState_dec e : Decision (isSetState e).
Proof. destruct e; simpl; apply _. Defined.


(** ** The states the branches commit *)

(** [filter(same resource).length + 1], as [requestResource] evaluates it
    on the state it reads. *)
Definition queuedPosition (s : ResourceAllocationState) (resourceId : string)
    : Z :=
  (Z.of_nat (length (filter (fun w => WaitlistEntry.resourceId w = resourceId)
                            (waitlist s))) + 1)%Z.

(** The predicate of the [find] that opens [returnResource]. *)
Definition holds (resourceId userId : string) (a : Assignment.t) : Prop :=
  Assignment.resourceId a = resourceId /\ Assignment.userId a = userId
  /\ Assignment.status a = active.

(** The predicate [activeAssignmentCount] counts. *)
Definition activeFor (resourceId : string) (a : Assignment.t) : Prop :=
  Assignment.resourceId a = resourceId /\ Assignment.status a = active.

(** The ledger once every assignment carrying the id of [a] is flipped. *)
Definition released (a : Assignment.t) (l : list Assignment.t)
    : list Assignment.t :=
  map (fun x => if decide (Assignment.id x = Assignment.id a)
                then markReturned x else x) l.

(** The state committed by the auto-assignment branch. *)
Definition promotedState (s : ResourceAllocationState) (resourceId : string)
    (a : Assignment.t) (next : WaitlistEntry.t) (r : Resource.t)
    (newId : string) (now : Z) : ResourceAllocationState :=
  mkState (resources s)
    (released a (assignments s)
       ++ [Assignment.mk newId resourceId (WaitlistEntry.userId next) now None
             active])
    (filter (fun w => WaitlistEntry.id w ≠ WaitlistEntry.id next) (waitlist s))
    (utilizationLog s)
    (appendNotification (notifications s) (WaitlistEntry.userId next)
       (Resource.name r +:+ " is now assigned to you."))
    (conversationByUser s).

(** ** Capacity *)

(** The invariant in the form every operation preserves: the resource that
    the catalog lookup resolves for an id bounds the active count of that
    id. *)
Definition capacityOk (s : ResourceAllocationState) : Prop :=
  forall rid r,
    Array_find (fun r => Resource.id r = rid) (resources s) = Some r ->
    (Z.of_nat (activeAssignmentCount s rid) <= Resource.quantity r)%Z.

(** ** The queue of a resource *)

(** The order [Array_sort] sorts by. *)
Definition ascending {A} (key : A -> Z) : relation A :=
  fun a b => (key a <= key b)%Z.

(** The waitlist entries of a resource in the order [getNextWaitlistEntry]
    sorts them. *)
Definition queueOf (s : ResourceAllocationState) (resourceId : string)
    : list WaitlistEntry.t :=
  Array_sort WaitlistEntry.requestedAt
    (filter (fun w => WaitlistEntry.resourceId w = resourceId) (waitlist s)).

(** One return call: the MCP environment it is served under, the caller,
    and what [generateId()] and the clock give it. *)
Record ReturnCall := {
  callMcp : Mcp;
  callUser : string;
  callNewId : string;
  callNow : Z }.

(** Successive [returnResource] calls for one resource, each on the store
    the previous one left. *)
Fixpoint returnRuns (resourceId : string) (calls : list ReturnCall)
    (s : ResourceAllocationState) : list (Run ReturnResult.t) :=
  match calls with
  | [] => []
  | c :: rest =>
      let run := returnResource resourceId (callUser c) (callNewId c)
                   (callNow c) (callMcp c) s in
      run :: returnRuns resourceId rest (store run)
  end.

(** The run completed with a value whose [ok] is [true]. *)
Definition succeeded (run : Run ReturnResult.t) : Prop :=
  exists result, resultOf run = Some result /\ ReturnResult.ok result = true.

(** ** The utilization log *)

Definition entriesFor (resourceId date : string)
    (log : list UtilizationLogEntry.t) : list UtilizationLogEntry.t :=
  filter (fun e => UtilizationLogEntry.resourceId e = resourceId
                   /\ UtilizationLogEntry.date e = date) log.

(** At most one entry per (resource, date) pair. *)
Definition uniqueLog (log : list UtilizationLogEntry.t) : Prop :=
  forall rid d, length (entriesFor rid d log) <= 1.



(** ** Generated ids *)

(** The id an operation draws from [generateId()], if it may draw one. *)
Definition generatedId (call : Mcp * Op) : option string :=
  match call.2 with
  | OpRequestResource _ _ _ newId _ => Some newId
  | OpReturnResource _ _ newId _ => Some newId
  | _ => None
  end.

(** Assignment ids are pairwise distinct, and so are waitlist ids. *)
Definition uniqueIds (s : ResourceAllocationState) : Prop :=
  NoDup (map Assignment.id (assignments s))
  /\ NoDup (map WaitlistEntry.id (waitlist s)).

Definition idsOf (s : ResourceAllocationState) : list string :=
  map Assignment.id (assignments s) ++ map WaitlistEntry.id (waitlist s).

(** ** Scenarios *)

(** Alice holds the only unit of P1. *)
Definition aliceHoldsP1 : ResourceAllocationState :=
  store (requestResource "P1" "alice" None "a1" 1000 noMcp seededState).

(** Bob waits for P1, which alice holds. *)
Definition bobWaitsP1 : ResourceAllocationState :=
  store (requestResource "P1" "bob" None "w1" 2000 noMcp aliceHoldsP1).

(** Carol waits behind bob. *)
Definition carolWaitsP1 : ResourceAllocationState :=
  store (requestResource "P1" "carol" None "w2" 3000 noMcp bobWaitsP1).

(** A log with a half-used resource and a resource of zero total. *)
Definition sampleLogState : ResourceAllocationState :=
  with_utilizationLog seededState
    [ UtilizationLogEntry.mk "E1" "2026-03-01" 1 2;
      UtilizationLogEntry.mk "Z0" "2026-03-01" 0 0 ].

(** A Slack server is connected and its tool calls resolve. *)
Definition slackReady : Mcp :=
  {| listServers := ["slack"];
     connectionState := fun id => if decide (id = "slack") then Some "ready"
                                  else None;
     callTool := fun _ _ _ => true |}.

(** ** Traces of the notifier *)

Definition isCallTool (e : Event) : Prop :=
  match e with EvCallTool _ _ _ => True | _ => False end.

#[global] Instance isCallTool_dec e : Decision (isCallTool e).
Proof. destruct e; simpl; apply _. Defined.

Definition isConsoleError (e : Event) : Prop :=
  match e with EvConsoleError _ => True | _ => False end.

#[global] Instance isConsoleError_dec e : Decision (isConsoleError e).
Proof. destruct e; simpl; apply _. Defined.

(** The text logged when a tool call of [server] rejects. *)
Definition notifyFailed (server : string) : Event :=
  EvConsoleError ("[ResourceAllocationAgent] MCP notify (" +:+ server
                    +:+ ") failed:").

(** ** Known resources *)


(** A resource with a waiting entry has every unit assigned. *)
Definition noIdleUnit (s : ResourceAllocationState) : Prop :=
  forall rid r w,
    Array_find (fun r => Resource.id r = rid) (resources s) = Some r ->
    w ∈ waitlist s -> WaitlistEntry.resourceId w = rid ->
    Z.of_nat (activeAssignmentCount s rid) = Resource.quantity r.

(** ** Reminders *)

(** The assignments the reminder loop does not skip. *)
Definition dueSoon (dateParse : string -> option Z) (now : Z)
    (a : Assignment.t) : Prop :=
  Assignment.status a = active
  /\ exists d, Assignment.dueReturnAt a = Some d /\ d ≠ ""
       /\ outsideWindow dateParse now
            (now + REMINDER_HOURS_AHEAD * 60 * 60 * 1000)%Z d = false.

#[global] Instance dueSoon_dec dateParse now a :
  Decision (dueSoon dateParse now a).
Proof.
  unfold dueSoon.
  destruct (Assignment.dueReturnAt a) as [d|].
  - destruct (decide (Assignment.status a = active
                      /\ d ≠ ""
                      /\ outsideWindow dateParse now
                           (now + REMINDER_HOURS_AHEAD * 60 * 60 * 1000)%Z d
                         = false)) as [(H1 & H2 & H3)|Hn].
    + left. split; [done|]. by exists d.
    + right. intros (H1 & d' & [= <-] & H2 & H3). by apply Hn.
  - right. intros (_ & d & Hd & _). done.
Defined.

(** The reminder text for an assignment, as the loop builds it in state
    [s]. *)
Definition reminderMessage (s : ResourceAllocationState) (a : Assignment.t)
    : string :=
  "Reminder: Please return "
    +:+ match Array_find (fun r => Resource.id r = Assignment.resourceId a)
                         (resources s) with
        | Some r => Resource.name r
        | None => Assignment.resourceId a
        end
    +:+ " by " +:+ String.substring 0 10 (default "" (Assignment.dueReturnAt a))
    +:+ ".".

(** ** Utilization records *)

(** The record [getUtilization] builds from a log entry. *)
Definition recordOf (e : UtilizationLogEntry.t) : UtilizationRecord.t :=
  UtilizationRecord.mk (UtilizationLogEntry.resourceId e)
    (UtilizationLogEntry.date e) (UtilizationLogEntry.allocated e)
    (UtilizationLogEntry.total e) (utilizationOf e).

(** The resource part of the filter of [getUtilization]. *)
Definition resourceMatches (resourceId : option string)
    (e : UtilizationLogEntry.t) : Prop :=
  resourceId = None \/ resourceId = Some ""
  \/ resourceId = Some (UtilizationLogEntry.resourceId e).

#[global] Instance resourceMatches_dec resourceId e :
  Decision (resourceMatches resourceId e).
Proof. unfold resourceMatches. apply _. Defined.


(** Every log entry counts no more units than the resource has. *)
Definition logSound (log : list UtilizationLogEntry.t) : Prop :=
  forall e, e ∈ log ->
    (0 <= UtilizationLogEntry.allocated e <= UtilizationLogEntry.total e)%Z.

(** A state with a holder and a waiting entry for a resource that is in no
    catalog. *)
Definition orphanState : ResourceAllocationState :=
  mkState []
    [Assignment.mk "a1" "G7" "alice" 1000 None active]
    [WaitlistEntry.mk "w1" "G7" "bob" 2000 None]
    [] ∅ ∅.

(** Both servers are connected; Slack rejects, e-mail resolves. *)
Definition slackDown : Mcp :=
  {| listServers := ["slack"; "email"];
     connectionState := fun _ => Some "ready";
     callTool := fun server _ _ => bool_decide (server = "email") |}.

(** ** The ledger as history *)

(** [a'] is [a] later in its life: the same assignment, possibly returned
    in the meantime, never reopened. *)
Definition laterOf (a a' : Assignment.t) : Prop :=
  Assignment.id a' = Assignment.id a
  /\ Assignment.resourceId a' = Assignment.resourceId a
  /\ Assignment.userId a' = Assignment.userId a
  /\ Assignment.assignedAt a' = Assignment.assignedAt a
  /\ Assignment.dueReturnAt a' = Assignment.dueReturnAt a
  /\ (Assignment.status a = returned -> Assignment.status a' = returned).

(** ** Conversations *)



(** * Properties *)

(** ** Array helpers *)

Section ArrayFacts.
Context {A : Type} (P : A -> Prop) `{!forall x, Decision (P x)}.

Lemma Array_find_Some (l : list A) (x : A) :
  Array_find P l = Some x -> x ∈ l /\ P x.
Proof.
  unfold Array_find. destruct (list_find P l) as [[i y]|] eqn:E; [|done].
  simpl. intros [= ->]. apply list_find_Some in E as (Hi & HP & _).
  split; [by eapply list_elem_of_lookup_2|done].
Qed.

Lemma Array_find_None (l : list A) :
  Array_find P l = None <-> forall x, x ∈ l -> ~ P x.
Proof.
  unfold Array_find. rewrite fmap_None, list_find_None, Forall_forall. done.
Qed.

Lemma Array_find_is_Some (l : list A) (x : A) :
  x ∈ l -> P x -> is_Some (Array_find P l).
Proof.
  intros Hx HP. unfold Array_find.
  destruct (list_find_elem_of P l x Hx HP) as [[i y] ->]. by eexists.
Qed.

Lemma Array_find_app_l (l k : list A) (x : A) :
  Array_find P l = Some x -> Array_find P (l ++ k) = Some x.
Proof.
  unfold Array_find. destruct (list_find P l) as [[i y]|] eqn:E; [|done].
  simpl. intros [= ->]. by rewrite (list_find_app_l _ _ _ _ _ E).
Qed.


Lemma Array_some_false (l : list A) :
  Array_some P l = false <-> forall x, x ∈ l -> ~ P x.
Proof.
  unfold Array_some. rewrite bool_decide_eq_false, Exists_exists.
  split.
  - intros Hno x Hx HP. apply Hno. by exists x.
  - intros Hno (x & Hx & HP). by apply (Hno x).
Qed.
End ArrayFacts.

(** ** The notifier never throws and never touches the store *)

Ltac agent_unfold :=
  unfold mbind, mret, Agent_bind, Agent_ret, bind, ret, getState, setState,
    getMcp, emit, throw.

Lemma notifyLoop_run userId message order mcp s :
  completion (notifyLoop userId message order mcp s) = Normal tt
  /\ store (notifyLoop userId message order mcp s) = s
  /\ Forall (fun e => ~ isSetState e)
            (events (notifyLoop userId message order mcp s)).
Proof.
  induction order as [|c rest IH]; [by repeat split; simpl; constructor|].
  simpl. agent_unfold. simpl.
  destruct (decide (connectionState mcp (serverId c) = Some "ready")); [|done].
  simpl.
  destruct (callTool mcp (serverId c) (toolName c) (args c userId message));
    simpl.
  - repeat split; [done..|]. repeat constructor. simpl. tauto.
  - destruct IH as (-> & -> & Hev). simpl. repeat split; [done..|].
    repeat constructor; simpl; tauto || done.
Qed.

Lemma notifyViaMcp_run userId message prefer mcp s :
  completion (notifyViaMcp userId message prefer mcp s) = Normal tt
  /\ store (notifyViaMcp userId message prefer mcp s) = s
  /\ Forall (fun e => ~ isSetState e)
            (events (notifyViaMcp userId message prefer mcp s)).
Proof.
  unfold notifyViaMcp. agent_unfold. simpl.
  destruct (decide (length (listServers mcp) = 0)); simpl.
  - repeat split; [done..|constructor].
  - destruct (notifyLoop_run userId message
                (if decide (prefer = Some "email")
                 then reverse MCP_NOTIFY_CONFIG else MCP_NOTIFY_CONFIG) mcp s)
      as (-> & -> & Hev).
    simpl. done.
Qed.

#[global] Opaque notifyViaMcp.

(** Sequencing a notification in front of a continuation. *)
Lemma bind_notifyViaMcp {B} userId message prefer (k : Agent B) mcp s :
  (notifyViaMcp userId message prefer;; k) mcp s
  = mkRun (completion (k mcp s)) (store (k mcp s))
          (events (notifyViaMcp userId message prefer mcp s)
             ++ events (k mcp s)).
Proof.
  destruct (notifyViaMcp_run userId message prefer mcp s) as (Hc & Hs & _).
  unfold mbind, Agent_bind, bind. rewrite Hc, Hs. done.
Qed.

(** ** The branches of [requestResource] *)

Lemma requestResource_unknown_run resourceId userId due newId now mcp s :
  Array_find (fun r => Resource.id r = resourceId) (resources s) = None ->
  requestResource resourceId userId due newId now mcp s
  = mkRun (Normal (RequestResult.mk false ("Unknown resource: " +:+ resourceId)
                     None None))
          s [].
Proof. intros Hfind. unfold requestResource. agent_unfold. simpl. by rewrite Hfind. Qed.

Lemma requestResource_granted_run resourceId userId due newId now mcp s r :
  Array_find (fun r => Resource.id r = resourceId) (resources s) = Some r ->
  (Z.of_nat (activeAssignmentCount s resourceId) < Resource.quantity r)%Z ->
  let s' := with_assignments s
              (assignments s
                 ++ [Assignment.mk newId resourceId userId now due active]) in
  requestResource resourceId userId due newId now mcp s
  = mkRun (Normal (RequestResult.mk true
                     ("Assigned " +:+ Resource.name r +:+ " to you.")
                     (Some newId) None))
          s' [EvSetState s'].
Proof.
  intros Hfind Hlt. unfold requestResource. agent_unfold. simpl.
  rewrite Hfind. simpl. by rewrite decide_True.
Qed.

Lemma requestResource_queued_run resourceId userId due newId now mcp s r :
  Array_find (fun r => Resource.id r = resourceId) (resources s) = Some r ->
  ~ (Z.of_nat (activeAssignmentCount s resourceId) < Resource.quantity r)%Z ->
  let s' := with_waitlist s
              (waitlist s
                 ++ [WaitlistEntry.mk newId resourceId userId now None]) in
  let position := queuedPosition s' resourceId in
  let waitlistMessage :=
    "You're #" +:+ pretty position +:+ " for " +:+ Resource.name r
      +:+ ". We'll notify you when it's available." in
  requestResource resourceId userId due newId now mcp s
  = mkRun (Normal (RequestResult.mk false
                     ("No availability. You were added to the waitlist (position "
                        +:+ pretty position +:+ ").")
                     None (Some position)))
          s'
          (EvSetState s'
             :: events (notifyViaMcp userId waitlistMessage None mcp s')).
Proof.
  intros Hfind Hge. unfold requestResource. agent_unfold. simpl.
  rewrite Hfind. simpl. rewrite decide_False by done. simpl.
  match goal with
  | |- context [notifyViaMcp ?u ?m ?p mcp ?st] =>
      destruct (notifyViaMcp_run u m p mcp st) as (Hc & Hs & _)
  end.
  unfold with_waitlist in *. simpl in *. rewrite Hc. simpl. rewrite Hs.
  by rewrite app_nil_r.
Qed.

(** ** The branches of [returnResource] *)

Lemma returnResource_none_run resourceId userId newId now mcp s :
  Array_find (holds resourceId userId) (assignments s) = None ->
  returnResource resourceId userId newId now mcp s
  = mkRun (Normal (ReturnResult.mk false
                     ("No active assignment found for " +:+ resourceId
                        +:+ " and you.") None))
          s [].
Proof.
  intros Hfind. unfold returnResource. agent_unfold. simpl.
  unfold holds in Hfind. by rewrite Hfind.
Qed.

Lemma returnResource_plain_run resourceId userId newId now mcp s a :
  Array_find (holds resourceId userId) (assignments s) = Some a ->
  getNextWaitlistEntry s resourceId = None ->
  let s' := with_assignments s (released a (assignments s)) in
  returnResource resourceId userId newId now mcp s
  = mkRun (Normal (ReturnResult.mk true "Returned successfully." None))
          s' [EvSetState s'].
Proof.
  intros Hfind Hnext. unfold returnResource. agent_unfold. simpl.
  unfold holds in Hfind. rewrite Hfind. simpl. by rewrite Hnext.
Qed.

Lemma returnResource_throw_run resourceId userId newId now mcp s a next :
  Array_find (holds resourceId userId) (assignments s) = Some a ->
  getNextWaitlistEntry s resourceId = Some next ->
  Array_find (fun r => Resource.id r = resourceId) (resources s) = None ->
  returnResource resourceId userId newId now mcp s
  = mkRun (Throw "TypeError: Cannot read properties of undefined (reading 'name')")
          s [].
Proof.
  intros Hfind Hnext Hres. unfold returnResource. agent_unfold. simpl.
  unfold holds in Hfind. rewrite Hfind. simpl. rewrite Hnext. simpl.
  by rewrite Hres.
Qed.

Lemma returnResource_promote_run resourceId userId newId now mcp s a next r :
  Array_find (holds resourceId userId) (assignments s) = Some a ->
  getNextWaitlistEntry s resourceId = Some next ->
  Array_find (fun r => Resource.id r = resourceId) (resources s) = Some r ->
  let s' := promotedState s resourceId a next r newId now in
  let u := WaitlistEntry.userId next in
  returnResource resourceId userId newId now mcp s
  = mkRun (Normal (ReturnResult.mk true
                     (if decide (u = "") then "Returned successfully."
                      else "Returned. Next in line (" +:+ u
                             +:+ ") was auto-assigned.")
                     (Some u)))
          s'
          (events (notifyViaMcp u (Resource.name r +:+ " is now assigned to you.")
                     None mcp s)
             ++ [EvSetState s']).
Proof.
  intros Hfind Hnext Hres. unfold returnResource. agent_unfold. simpl.
  unfold holds in Hfind. rewrite Hfind. simpl. rewrite Hnext. simpl.
  rewrite Hres. simpl.
  match goal with
  | |- context [notifyViaMcp ?u ?m ?p mcp ?st] =>
      destruct (notifyViaMcp_run u m p mcp st) as (Hc & Hs & _)
  end.
  rewrite Hc. simpl. done.
Qed.

(** ** The reminder sweep commits once, at its end *)

Section SweepFacts.
Variable dateParse : string -> option Z.

Lemma remindLoop_run now windowEnd l notifications0 mcp s :
  exists notifications',
    completion (remindLoop dateParse now windowEnd l notifications0 mcp s)
    = Normal notifications'
    /\ store (remindLoop dateParse now windowEnd l notifications0 mcp s) = s
    /\ Forall (fun e => ~ isSetState e)
         (events (remindLoop dateParse now windowEnd l notifications0 mcp s)).
Proof.
  revert notifications0.
  induction l as [|a rest IH]; intros notifications0; simpl.
  { eexists. repeat split; constructor. }
  destruct (Assignment.status a); [|apply IH].
  destruct (Assignment.dueReturnAt a) as [due|]; [|apply IH].
  destruct (decide (due = "")); [apply IH|].
  destruct (outsideWindow dateParse now windowEnd due); [apply IH|].
  agent_unfold. simpl.
  match goal with
  | |- context [notifyViaMcp ?u ?m ?p mcp s] =>
      destruct (notifyViaMcp_run u m p mcp s) as (Hc & Hs & Hev);
      rewrite Hc; simpl; rewrite Hs
  end.
  match goal with
  | |- context [remindLoop _ _ _ _ ?n mcp s] =>
      destruct (IH n) as (n' & Hc' & Hs' & Hev')
  end.
  exists n'. repeat split; [done..|]. by apply Forall_app.
Qed.

Lemma checkReturnReminders_run now today mcp s :
  exists notifications',
    let s' := mkState (resources s) (assignments s) (waitlist s)
                (foldl (logResource s today) (utilizationLog s) (resources s))
                notifications' (conversationByUser s) in
    completion (checkReturnReminders dateParse now today mcp s) = Normal tt
    /\ store (checkReturnReminders dateParse now today mcp s) = s'.
Proof.
  unfold checkReturnReminders. agent_unfold. simpl.
  match goal with
  | |- context [remindLoop _ ?n ?w ?l ?n0 mcp s] =>
      destruct (remindLoop_run n w l n0 mcp s) as (n' & Hc & Hs & _)
  end.
  exists n'. simpl. rewrite Hc. simpl. rewrite Hs. done.
Qed.

Lemma store_then_ret {A} (m : Agent A) mcp s :
  store ((m;; mret tt) mcp s) = store (m mcp s).
Proof. agent_unfold. by destruct (completion (m mcp s)). Qed.

(** The store each operation leaves, by cases on the operation. *)
Lemma step_cases s mcp op :
  match op with
  | OpRequestResource rid uid due newId now =>
      step dateParse s (mcp, op)
      = store (requestResource rid uid due newId now mcp s)
  | OpReturnResource rid uid newId now =>
      step dateParse s (mcp, op) = store (returnResource rid uid newId now mcp s)
  | OpClearNotifications uid =>
      step dateParse s (mcp, op)
      = with_notifications s (delete uid (notifications s))
  | OpCheckReturnReminders now today =>
      step dateParse s (mcp, op)
      = store (checkReturnReminders dateParse now today mcp s)
  | _ => step dateParse s (mcp, op) = s
  end.
Proof.
  destruct op; unfold step, exec; cbn [fst snd];
    rewrite ?store_then_ret; done.
Qed.

(** The store [requestResource] leaves is one of three. *)
Lemma requestResource_store rid uid due newId now mcp s :
  let s' := store (requestResource rid uid due newId now mcp s) in
  s' = s
  \/ (exists r,
        Array_find (fun r => Resource.id r = rid) (resources s) = Some r
        /\ (Z.of_nat (activeAssignmentCount s rid) < Resource.quantity r)%Z
        /\ s' = with_assignments s
                  (assignments s
                     ++ [Assignment.mk newId rid uid now due active]))
  \/ s' = with_waitlist s
            (waitlist s ++ [WaitlistEntry.mk newId rid uid now None]).
Proof.
  intros s'. subst s'.
  destruct (Array_find (fun r => Resource.id r = rid) (resources s))
    as [r|] eqn:Hfind.
  - destruct (decide (Z.of_nat (activeAssignmentCount s rid)
                      < Resource.quantity r)%Z) as [Hlt|Hge].
    + rewrite (requestResource_granted_run _ _ _ _ _ _ _ _ Hfind Hlt).
      right; left. by exists r.
    + rewrite (requestResource_queued_run _ _ _ _ _ _ _ _ Hfind Hge).
      by right; right.
  - rewrite (requestResource_unknown_run _ _ _ _ _ _ _ Hfind). by left.
Qed.

(** The store [returnResource] leaves is one of three. *)
Lemma returnResource_store rid uid newId now mcp s :
  let s' := store (returnResource rid uid newId now mcp s) in
  s' = s
  \/ (exists a,
        Array_find (holds rid uid) (assignments s) = Some a
        /\ getNextWaitlistEntry s rid = None
        /\ s' = with_assignments s (released a (assignments s)))
  \/ (exists a next r,
        Array_find (holds rid uid) (assignments s) = Some a
        /\ getNextWaitlistEntry s rid = Some next
        /\ Array_find (fun r => Resource.id r = rid) (resources s) = Some r
        /\ s' = promotedState s rid a next r newId now).
Proof.
  intros s'. subst s'.
  destruct (Array_find (holds rid uid) (assignments s)) as [a|] eqn:Hfind.
  - destruct (getNextWaitlistEntry s rid) as [next|] eqn:Hnext.
    + destruct (Array_find (fun r => Resource.id r = rid) (resources s))
        as [r|] eqn:Hres.
      * rewrite (returnResource_promote_run _ _ _ _ _ _ _ _ _
                   Hfind Hnext Hres).
        right; right. by exists a, next, r.
      * rewrite (returnResource_throw_run _ _ _ _ _ _ _ _ Hfind Hnext Hres).
        by left.
    + rewrite (returnResource_plain_run _ _ _ _ _ _ _ Hfind Hnext).
      right; left. by exists a.
  - rewrite (returnResource_none_run _ _ _ _ _ _ Hfind). by left.
Qed.

Lemma step_resources s call : resources (step dateParse s call) = resources s.
Proof.
  destruct call as [mcp op]. pose proof (step_cases s mcp op) as Hstep.
  destruct op as [rid uid due newId now|rid uid newId now| | | | |now today];
    rewrite Hstep; try done.
  - destruct (requestResource_store rid uid due newId now mcp s)
      as [->|[(r & _ & _ & ->)| ->]]; done.
  - destruct (returnResource_store rid uid newId now mcp s)
      as [->|[(a & _ & _ & ->)|(a & next & r & _ & _ & _ & ->)]]; done.
  - destruct (checkReturnReminders_run now today mcp s) as (n' & _ & ->).
    done.
Qed.

Lemma runOps_resources calls s :
  resources (runOps dateParse calls s) = resources s.
Proof.
  unfold runOps. revert s.
  induction calls as [|c calls IH]; intros s; simpl; [done|].
  by rewrite IH, step_resources.
Qed.
End SweepFacts.

(** ** Counting active assignments *)

Lemma filter_length_pos {A} (P : A -> Prop) `{!forall x, Decision (P x)}
    (l : list A) (x : A) :
  x ∈ l -> P x -> 1 <= length (filter P l).
Proof.
  intros Hx HP. assert (Hin : x ∈ filter P l) by (by apply list_elem_of_filter).
  destruct (filter P l); [by apply elem_of_nil in Hin|simpl; lia].
Qed.

(** ** Unknown resource *)

(** C10: for a [resourceId] carried by no catalog resource, [requestResource]
    returns the "Unknown resource" failure result, leaves the whole state as
    it was and emits nothing: no [setState], no tool call. *)
Theorem requestResource_unknown_resource
    resourceId userId dueReturnAt newId now mcp s :
  (forall r, r ∈ resources s -> Resource.id r ≠ resourceId) ->
  requestResource resourceId userId dueReturnAt newId now mcp s
  = mkRun (Normal (RequestResult.mk false ("Unknown resource: " +:+ resourceId)
                     None None))
          s [].
Proof.
  intros Hno. apply requestResource_unknown_run.
  apply Array_find_None. intros r Hr Hid. by apply (Hno r).
Qed.

Lemma requestResource_unknown_resource_witness :
  (forall r, r ∈ resources seededState -> Resource.id r ≠ "X9")
  /\ requestResource "X9" "alice" None "k1" 1000 noMcp seededState
     = mkRun (Normal (RequestResult.mk false "Unknown resource: X9" None None))
             seededState [].
Proof.
  assert (H : forall r, r ∈ resources seededState -> Resource.id r ≠ "X9").
  { apply Forall_forall. compute_done. }
  split; [exact H|].
  exact (requestResource_unknown_resource "X9" "alice" None "k1" 1000 noMcp
           seededState H).
Defined.

(** ** Returning what is not held *)

(** C6: when no assignment is active for this resource and this user,
    [returnResource] returns the "No active assignment" failure result as a
    value (nothing is thrown) and the run leaves the state untouched and
    emits no event. *)
Theorem returnResource_no_active_assignment
    resourceId userId newId now mcp s :
  (forall a, a ∈ assignments s ->
     ~ (Assignment.resourceId a = resourceId /\ Assignment.userId a = userId
        /\ Assignment.status a = active)) ->
  returnResource resourceId userId newId now mcp s
  = mkRun (Normal (ReturnResult.mk false
                     ("No active assignment found for " +:+ resourceId
                        +:+ " and you.") None))
          s [].
Proof.
  intros Hno. apply returnResource_none_run.
  apply Array_find_None. intros a Ha Hholds. by apply (Hno a).
Qed.

Lemma returnResource_no_active_assignment_witness :
  (forall a, a ∈ assignments seededState ->
     ~ (Assignment.resourceId a = "X" /\ Assignment.userId a = "alice"
        /\ Assignment.status a = active))
  /\ returnResource "X" "alice" "k1" 1000 noMcp seededState
     = mkRun (Normal (ReturnResult.mk false
                        "No active assignment found for X and you." None))
             seededState [].
Proof.
  assert (H : forall a, a ∈ assignments seededState ->
     ~ (Assignment.resourceId a = "X" /\ Assignment.userId a = "alice"
        /\ Assignment.status a = active)).
  { apply Forall_forall. compute_done. }
  split; [exact H|].
  exact (returnResource_no_active_assignment "X" "alice" "k1" 1000 noMcp
           seededState H).
Defined.

(** ** Queueing behind oneself *)

(** C9: there is no per-user deduplication.  When the resource resolved for
    [resourceId] has quantity 1 and [userId] already holds it, a further
    request by [userId] completes with a value, grants nothing
    ([ok = false], no [assignmentId]), reports a waitlist position and
    appends a waitlist entry for [userId]; the ledger is unchanged. *)
Theorem requestResource_queues_behind_self
    resourceId userId dueReturnAt newId now mcp s r held :
  Array_find (fun r => Resource.id r = resourceId) (resources s) = Some r ->
  Resource.quantity r = 1%Z ->
  held ∈ assignments s ->
  Assignment.resourceId held = resourceId ->
  Assignment.userId held = userId ->
  Assignment.status held = active ->
  exists position,
    resultOf (requestResource resourceId userId dueReturnAt newId now mcp s)
    = Some (RequestResult.mk false
              ("No availability. You were added to the waitlist (position "
                 +:+ pretty position +:+ ").")
              None (Some position))
    /\ store (requestResource resourceId userId dueReturnAt newId now mcp s)
       = with_waitlist s
           (waitlist s ++ [WaitlistEntry.mk newId resourceId userId now None])
    /\ assignments
         (store (requestResource resourceId userId dueReturnAt newId now mcp s))
       = assignments s.
Proof.
  intros Hfind Hq Hheld Hrid Huid Hact.
  assert (Hge : ~ (Z.of_nat (activeAssignmentCount s resourceId)
                   < Resource.quantity r)%Z).
  { rewrite Hq. unfold activeAssignmentCount.
    pose proof (filter_length_pos
                  (fun a => Assignment.resourceId a = resourceId
                            /\ Assignment.status a = active)
                  (assignments s) held Hheld (conj Hrid Hact)).
    lia. }
  rewrite (requestResource_queued_run _ _ _ _ _ _ _ _ Hfind Hge).
  eexists. repeat split.
Qed.

Lemma requestResource_queues_behind_self_witness :
  exists position,
    resultOf (requestResource "P1" "alice" None "w1" 2000 noMcp aliceHoldsP1)
    = Some (RequestResult.mk false
              ("No availability. You were added to the waitlist (position "
                 +:+ pretty position +:+ ").")
              None (Some position))
    /\ store (requestResource "P1" "alice" None "w1" 2000 noMcp aliceHoldsP1)
       = with_waitlist aliceHoldsP1
           (waitlist aliceHoldsP1
              ++ [WaitlistEntry.mk "w1" "P1" "alice" 2000 None])
    /\ assignments
         (store (requestResource "P1" "alice" None "w1" 2000 noMcp aliceHoldsP1))
       = assignments aliceHoldsP1.
Proof.
  apply (requestResource_queues_behind_self "P1" "alice" None "w1" 2000 noMcp
           aliceHoldsP1
           (Resource.mk "P1" parking "Parking Spot 1" 1
              (Some {[ "location" := "Lot A" ]}))
           (Assignment.mk "a1" "P1" "alice" 1000 None active)).
  - vm_compute. reflexivity.
  - reflexivity.
  - vm_compute. apply list_elem_of_here.
  - reflexivity.
  - reflexivity.
  - reflexivity.
Defined.

(** ** The reported waitlist position *)

(** On the waitlist branch the position is read from [this.state] after
    [setState] has stored the list that already ends with the new entry:
    it is the number of entries the resource had before the call, plus two. *)
Lemma requestResource_position resourceId userId due newId now mcp s r :
  Array_find (fun r => Resource.id r = resourceId) (resources s) = Some r ->
  ~ (Z.of_nat (activeAssignmentCount s resourceId) < Resource.quantity r)%Z ->
  RequestResult.waitlistPosition
    <$> resultOf (requestResource resourceId userId due newId now mcp s)
  = Some (Some (Z.of_nat
                  (length (filter (fun w => WaitlistEntry.resourceId w
                                            = resourceId) (waitlist s))) + 2)%Z).
Proof.
  intros Hfind Hge.
  rewrite (requestResource_queued_run _ _ _ _ _ _ _ _ Hfind Hge).
  unfold resultOf, queuedPosition. simpl.
  rewrite filter_app, length_app. simpl.
  rewrite filter_cons_True by done. simpl. do 2 f_equal. lia.
Qed.

(** C1 (at the spec's own scenario): alice holds the single unit of P1 and
    the waitlist is empty; bob's request is queued and the position the code
    returns for this first and only entry is 2, where the 1-based position
    of the entry is 1. *)
Theorem requestResource_first_queued_position :
  waitlist aliceHoldsP1 = []
  /\ resultOf (requestResource "P1" "bob" None "w1" 2000 noMcp aliceHoldsP1)
     = Some (RequestResult.mk false
               "No availability. You were added to the waitlist (position 2)."
               None (Some 2%Z))
  /\ waitlist (store (requestResource "P1" "bob" None "w1" 2000 noMcp
                        aliceHoldsP1))
     = [WaitlistEntry.mk "w1" "P1" "bob" 2000 None].
Proof. repeat split; vm_compute; reflexivity. Qed.

(** ** Utilization math *)

(** C8: [getUtilization] always completes with a value and changes nothing;
    every record it returns copies a stored log entry, its [utilization] is
    [allocated / total] when [total > 0] and 0 when [total = 0]. *)
Theorem getUtilization_math resourceId dateFrom dateTo today mcp s :
  exists byResource,
    getUtilization resourceId dateFrom dateTo today mcp s
    = mkRun (Normal byResource) s []
    /\ forall rec, rec ∈ byResource ->
         (exists e, e ∈ utilizationLog s
            /\ UtilizationRecord.resourceId rec = UtilizationLogEntry.resourceId e
            /\ UtilizationRecord.date rec = UtilizationLogEntry.date e
            /\ UtilizationRecord.allocated rec = UtilizationLogEntry.allocated e
            /\ UtilizationRecord.total rec = UtilizationLogEntry.total e)
         /\ ((0 < UtilizationRecord.total rec)%Z ->
             UtilizationRecord.utilization rec
             = (inject_Z (UtilizationRecord.allocated rec)
                / inject_Z (UtilizationRecord.total rec))%Q)
         /\ (UtilizationRecord.total rec = 0%Z ->
             UtilizationRecord.utilization rec = 0%Q).
Proof.
  unfold getUtilization. agent_unfold. simpl. eexists. split; [reflexivity|].
  intros rec Hrec. apply list_elem_of_In, in_map_iff in Hrec as (e & <- & He).
  apply list_elem_of_In, list_elem_of_filter in He as [_ He]. simpl.
  split; [by exists e|]. unfold utilizationOf. split.
  - intros Hpos. by rewrite decide_True.
  - intros Hzero. rewrite decide_False; [done|lia].
Qed.

Lemma getUtilization_math_witness :
  resultOf (getUtilization None None None "2026-03-01" noMcp sampleLogState)
  = Some [ UtilizationRecord.mk "E1" "2026-03-01" 1 2 (1 # 2);
           UtilizationRecord.mk "Z0" "2026-03-01" 0 0 0 ]
  /\ (1 # 2 = inject_Z 1 / inject_Z 2)%Q.
Proof.
  destruct (getUtilization_math None None None "2026-03-01" noMcp
              sampleLogState) as (byResource & Hrun & Hmath).
  split; [reflexivity|].
  assert (Hin : UtilizationRecord.mk "E1" "2026-03-01" 1 2 (1 # 2)
                ∈ byResource).
  { assert (Hby : byResource
                  = [ UtilizationRecord.mk "E1" "2026-03-01" 1 2 (1 # 2);
                      UtilizationRecord.mk "Z0" "2026-03-01" 0 0 0 ]).
    { assert (Hc : Normal byResource
                   = completion (getUtilization None None None "2026-03-01"
                                   noMcp sampleLogState))
        by (by rewrite Hrun).
      vm_compute in Hc. by injection Hc. }
    rewrite Hby. apply list_elem_of_here. }
  destruct (Hmath _ Hin) as (_ & Hpos & _).
  apply Hpos. simpl. lia.
Defined.

(** ** The capacity invariant *)

Lemma activeAssignmentCount_eq s rid :
  activeAssignmentCount s rid = length (filter (activeFor rid) (assignments s)).
Proof. reflexivity. Qed.

Lemma active_count_snoc rid l a :
  length (filter (activeFor rid) (l ++ [a]))
  = length (filter (activeFor rid) l)
    + (if decide (activeFor rid a) then 1 else 0).
Proof.
  rewrite filter_app, length_app. f_equal.
  destruct (decide (activeFor rid a)).
  - by rewrite filter_cons_True.
  - by rewrite filter_cons_False.
Qed.

(** Releasing never raises a count. *)
Lemma released_count_le rid a l :
  length (filter (activeFor rid) (released a l))
  <= length (filter (activeFor rid) l).
Proof.
  induction l as [|x l IH]; [done|]. simpl.
  destruct (decide (Assignment.id x = Assignment.id a)).
  - rewrite (filter_cons_False _ (markReturned x)) by (intros [_ ?]; done).
    destruct (decide (activeFor rid x)).
    + rewrite filter_cons_True by done. simpl. lia.
    + by rewrite filter_cons_False.
  - destruct (decide (activeFor rid x)).
    + rewrite !filter_cons_True by done. simpl. lia.
    + by rewrite !filter_cons_False.
Qed.

(** Releasing an active assignment of the ledger lowers the count of its
    resource. *)
Lemma released_count_lt a l :
  a ∈ l -> Assignment.status a = active ->
  length (filter (activeFor (Assignment.resourceId a)) (released a l))
  < length (filter (activeFor (Assignment.resourceId a)) l).
Proof.
  intros Hin Hact. induction l as [|x l IH]; [by apply elem_of_nil in Hin|].
  simpl. apply elem_of_cons in Hin as [<-|Hin].
  - rewrite decide_True by done.
    rewrite (filter_cons_False _ (markReturned a)) by (intros [_ ?]; done).
    rewrite filter_cons_True by done. simpl.
    pose proof (released_count_le (Assignment.resourceId a) a l). lia.
  - specialize (IH Hin).
    destruct (decide (Assignment.id x = Assignment.id a)).
    + rewrite (filter_cons_False _ (markReturned x)) by (intros [_ ?]; done).
      destruct (decide (activeFor (Assignment.resourceId a) x)).
      * rewrite filter_cons_True by done. simpl. lia.
      * by rewrite filter_cons_False.
    + destruct (decide (activeFor (Assignment.resourceId a) x)).
      * rewrite !filter_cons_True by done. simpl. lia.
      * by rewrite !filter_cons_False.
Qed.

Lemma requestResource_capacityOk rid uid due newId now mcp s :
  capacityOk s ->
  capacityOk (store (requestResource rid uid due newId now mcp s)).
Proof.
  intros Hok.
  destruct (requestResource_store rid uid due newId now mcp s)
    as [->|[(r & Hfind & Hlt & ->)| ->]]; [done| |done].
  intros rid' r' Hfind'. simpl in Hfind'.
  rewrite activeAssignmentCount_eq. simpl. rewrite active_count_snoc.
  specialize (Hok rid' r' Hfind'). rewrite activeAssignmentCount_eq in Hok.
  destruct (decide (activeFor rid' _)) as [[Heq _]|_]; [|lia].
  simpl in Heq. subst rid'. rewrite Hfind in Hfind'. injection Hfind' as <-.
  rewrite activeAssignmentCount_eq in Hlt. lia.
Qed.

Lemma returnResource_capacityOk rid uid newId now mcp s :
  capacityOk s ->
  capacityOk (store (returnResource rid uid newId now mcp s)).
Proof.
  intros Hok.
  destruct (returnResource_store rid uid newId now mcp s)
    as [->|[(a & Hfind & _ & ->)|(a & next & r & Hfind & _ & _ & ->)]];
    [done| |].
  - intros rid' r' Hfind'. specialize (Hok rid' r' Hfind').
    rewrite activeAssignmentCount_eq in *. simpl.
    pose proof (released_count_le rid' a (assignments s)). lia.
  - intros rid' r' Hfind'. specialize (Hok rid' r' Hfind').
    rewrite activeAssignmentCount_eq in *. simpl.
    rewrite active_count_snoc.
    pose proof (released_count_le rid' a (assignments s)) as Hle.
    destruct (decide (activeFor rid' _)) as [[Heq _]|_]; [|lia].
    simpl in Heq. subst rid'.
    apply Array_find_Some in Hfind as (Hin & Hrid & _ & Hact).
    pose proof (released_count_lt a (assignments s) Hin Hact) as Hlt.
    rewrite Hrid in Hlt. lia.
Qed.

Lemma step_capacityOk dateParse s call :
  capacityOk s -> capacityOk (step dateParse s call).
Proof.
  intros Hok. destruct call as [mcp op].
  pose proof (step_cases dateParse s mcp op) as Hstep.
  destruct op as [rid uid due newId now|rid uid newId now| | | | |now today];
    rewrite Hstep; try done.
  - by apply requestResource_capacityOk.
  - by apply returnResource_capacityOk.
  - destruct (checkReturnReminders_run dateParse now today mcp s)
      as (n' & _ & ->).
    done.
Qed.

Lemma runOps_capacityOk dateParse calls s :
  capacityOk s -> capacityOk (runOps dateParse calls s).
Proof.
  unfold runOps. revert s.
  induction calls as [|c calls IH]; intros s Hok; simpl; [done|].
  by apply IH, step_capacityOk.
Qed.

Lemma seededState_capacityOk : capacityOk seededState.
Proof.
  intros rid r Hfind. apply Array_find_Some in Hfind as [Hin _].
  change (Z.of_nat (activeAssignmentCount seededState rid)) with 0%Z.
  revert r Hin. apply Forall_forall. compute_done.
Qed.

(** Catalog ids are pairwise distinct in the seeded catalog, so the lookup
    by id resolves each of its resources to itself. *)
Lemma seeded_lookup r :
  r ∈ DEFAULT_RESOURCES ->
  Array_find (fun x => Resource.id x = Resource.id r) DEFAULT_RESOURCES = Some r.
Proof. revert r. apply Forall_forall. compute_done. Qed.

(** C2: in every state reached from the seeded state by any sequence of
    operations, served under any MCP environments, the number of active
    assignments of each catalog resource is at most its quantity. *)
Theorem capacity_invariant dateParse calls r :
  r ∈ resources (runOps dateParse calls seededState) ->
  (Z.of_nat (activeAssignmentCount (runOps dateParse calls seededState)
               (Resource.id r))
   <= Resource.quantity r)%Z.
Proof.
  intros Hr. apply (runOps_capacityOk dateParse calls seededState
                      seededState_capacityOk).
  rewrite runOps_resources in *. by apply seeded_lookup.
Qed.

Lemma capacity_invariant_witness :
  let calls :=
    [ (noMcp, OpRequestResource "P1" "alice" None "a1" 1000);
      (noMcp, OpRequestResource "P1" "bob" None "w1" 2000);
      (noMcp, OpReturnResource "P1" "alice" "a2" 3000) ] in
  let r := Resource.mk "P1" parking "Parking Spot 1" 1
             (Some {[ "location" := "Lot A" ]}) in
  r ∈ resources (runOps (fun _ => None) calls seededState)
  /\ (Z.of_nat (activeAssignmentCount (runOps (fun _ => None) calls seededState)
                  (Resource.id r))
      <= Resource.quantity r)%Z.
Proof.
  intros calls r.
  assert (H : r ∈ resources (runOps (fun _ => None) calls seededState)).
  { vm_compute. apply list_elem_of_here. }
  split; [exact H|].
  exact (capacity_invariant (fun _ => None) calls r H).
Defined.

(** ** The waitlist head *)

Lemma sort_insert_perm {A} (key : A -> Z) x l :
  sort_insert key x l ≡ₚ x :: l.
Proof.
  induction l as [|y l IH]; [done|]. simpl.
  destruct (decide (key x <= key y)%Z); [done|].
  rewrite IH. apply Permutation_swap.
Qed.

Lemma Array_sort_perm {A} (key : A -> Z) l : Array_sort key l ≡ₚ l.
Proof.
  induction l as [|x l IH]; [done|]. simpl.
  by rewrite sort_insert_perm, IH.
Qed.

Lemma getNextWaitlistEntry_None s rid :
  getNextWaitlistEntry s rid = None
  <-> forall w, w ∈ waitlist s -> WaitlistEntry.resourceId w ≠ rid.
Proof.
  unfold getNextWaitlistEntry. rewrite head_None. split.
  - intros Hnil w Hw Hrid.
    assert (Hin : w ∈ Array_sort WaitlistEntry.requestedAt
                        (filter (fun w => WaitlistEntry.resourceId w = rid)
                                (waitlist s))).
    { rewrite Array_sort_perm. by apply list_elem_of_filter. }
    rewrite Hnil in Hin. by apply elem_of_nil in Hin.
  - intros Hno. apply Permutation_nil_r. rewrite Array_sort_perm.
    apply Permutation_nil_r.
    destruct (filter _ (waitlist s)) as [|w l] eqn:E; [done|].
    assert (Hin : w ∈ filter (fun w => WaitlistEntry.resourceId w = rid)
                        (waitlist s)) by (rewrite E; apply list_elem_of_here).
    apply list_elem_of_filter in Hin as [Hrid Hin]. by destruct (Hno w Hin).
Qed.

Lemma getNextWaitlistEntry_Some s rid next :
  getNextWaitlistEntry s rid = Some next ->
  next ∈ waitlist s /\ WaitlistEntry.resourceId next = rid.
Proof.
  unfold getNextWaitlistEntry. intros Hhead.
  assert (Hin : next ∈ Array_sort WaitlistEntry.requestedAt
                         (filter (fun w => WaitlistEntry.resourceId w = rid)
                                 (waitlist s))).
  { destruct (Array_sort _ _) as [|x l]; [done|].
    injection Hhead as ->. apply list_elem_of_here. }
  rewrite Array_sort_perm in Hin.
  apply list_elem_of_filter in Hin as [Hrid Hin]. done.
Qed.

(** ** No idle unit while someone waits *)

Lemma released_fresh a l :
  Assignment.id a ∉ map Assignment.id l -> released a l = l.
Proof.
  induction l as [|x l IH]; [done|]. simpl. intros Hnotin.
  apply not_elem_of_cons in Hnotin as [Hne Hnotin].
  rewrite decide_False by done. by rewrite IH.
Qed.

(** With pairwise distinct ids, releasing flips one assignment only. *)
Lemma released_count_exact a l :
  NoDup (map Assignment.id l) ->
  a ∈ l -> Assignment.status a = active ->
  length (filter (activeFor (Assignment.resourceId a)) (released a l)) + 1
  = length (filter (activeFor (Assignment.resourceId a)) l).
Proof.
  intros Hnd Hin Hact. induction l as [|x l IH]; [by apply elem_of_nil in Hin|].
  simpl in Hnd. apply NoDup_cons in Hnd as [Hx Hnd]. simpl.
  apply elem_of_cons in Hin as [<-|Hin].
  - rewrite decide_True by done.
    rewrite (filter_cons_False _ (markReturned a)) by (intros [_ ?]; done).
    rewrite filter_cons_True by done. rewrite released_fresh by done.
    simpl. lia.
  - assert (Hne : Assignment.id x ≠ Assignment.id a).
    { intros Heq. apply Hx. rewrite Heq.
      apply list_elem_of_In, in_map, list_elem_of_In, Hin. }
    rewrite decide_False by done. specialize (IH Hnd Hin).
    destruct (decide (activeFor (Assignment.resourceId a) x)).
    + rewrite !filter_cons_True by done. simpl. lia.
    + by rewrite !filter_cons_False.
Qed.

(** C4: let the ids of the ledger be pairwise distinct (what [generateId]
    is for) and let [returnResource] succeed for resource [rid].  If some
    waitlist entry for [rid] exists, the freed unit goes at once to a
    waitlisted user: the result names that user, the new state holds an
    active assignment for them and the active count of [rid] is what it was
    before.  If no waitlist entry for [rid] exists, the active count drops by
    exactly one. *)
Theorem returnResource_no_idle_with_queue rid uid newId now mcp s result :
  NoDup (map Assignment.id (assignments s)) ->
  resultOf (returnResource rid uid newId now mcp s) = Some result ->
  ReturnResult.ok result = true ->
  let s' := store (returnResource rid uid newId now mcp s) in
  ((exists w, w ∈ waitlist s /\ WaitlistEntry.resourceId w = rid) ->
     activeAssignmentCount s' rid = activeAssignmentCount s rid
     /\ exists w, w ∈ waitlist s /\ WaitlistEntry.resourceId w = rid
          /\ ReturnResult.autoAssigned result = Some (WaitlistEntry.userId w)
          /\ Assignment.mk newId rid (WaitlistEntry.userId w) now None active
             ∈ assignments s')
  /\ ((forall w, w ∈ waitlist s -> WaitlistEntry.resourceId w ≠ rid) ->
      activeAssignmentCount s' rid + 1 = activeAssignmentCount s rid).
Proof.
  intros Hnd Hres Hok s'. subst s'.
  destruct (Array_find (holds rid uid) (assignments s)) as [a|] eqn:Hfind.
  2:{ rewrite (returnResource_none_run _ _ _ _ _ _ Hfind) in Hres.
      injection Hres as <-. done. }
  pose proof Hfind as Hfind'.
  apply Array_find_Some in Hfind' as (Hin & Hrid & _ & Hact).
  pose proof (released_count_exact a (assignments s) Hnd Hin Hact) as Hcount.
  rewrite Hrid in Hcount.
  destruct (getNextWaitlistEntry s rid) as [next|] eqn:Hnext.
  - destruct (Array_find (fun r => Resource.id r = rid) (resources s))
      as [r|] eqn:Hcat.
    2:{ by rewrite (returnResource_throw_run _ _ _ _ _ _ _ _ Hfind Hnext Hcat)
          in Hres. }
    rewrite (returnResource_promote_run _ _ _ _ _ _ _ _ _ Hfind Hnext Hcat)
      in *.
    injection Hres as <-. simpl.
    apply getNextWaitlistEntry_Some in Hnext as [Hnin Hnrid]. split.
    + intros _. split.
      * rewrite !activeAssignmentCount_eq. simpl. rewrite active_count_snoc.
        rewrite decide_True by done. lia.
      * exists next. repeat split; [done..|].
        apply elem_of_app. right. apply list_elem_of_here.
    + intros Hno. by destruct (Hno next Hnin).
  - rewrite (returnResource_plain_run _ _ _ _ _ _ _ Hfind Hnext) in *.
    simpl. split.
    + intros (w & Hw & Hwrid).
      by destruct (proj1 (getNextWaitlistEntry_None s rid) Hnext w Hw).
    + intros _. by rewrite !activeAssignmentCount_eq.
Qed.

Lemma returnResource_no_idle_with_queue_witness :
  let run := returnResource "P1" "alice" "a2" 3000 noMcp bobWaitsP1 in
  let result :=
    ReturnResult.mk true "Returned. Next in line (bob) was auto-assigned."
      (Some "bob") in
  NoDup (map Assignment.id (assignments bobWaitsP1))
  /\ resultOf run = Some result
  /\ ReturnResult.ok result = true
  /\ ((exists w, w ∈ waitlist bobWaitsP1 /\ WaitlistEntry.resourceId w = "P1") ->
        activeAssignmentCount (store run) "P1"
        = activeAssignmentCount bobWaitsP1 "P1"
        /\ exists w, w ∈ waitlist bobWaitsP1
             /\ WaitlistEntry.resourceId w = "P1"
             /\ ReturnResult.autoAssigned result
                = Some (WaitlistEntry.userId w)
             /\ Assignment.mk "a2" "P1" (WaitlistEntry.userId w) 3000 None active
                ∈ assignments (store run))
  /\ ((forall w, w ∈ waitlist bobWaitsP1 -> WaitlistEntry.resourceId w ≠ "P1") ->
        activeAssignmentCount (store run) "P1" + 1
        = activeAssignmentCount bobWaitsP1 "P1").
Proof.
  intros run result.
  assert (Hnd : NoDup (map Assignment.id (assignments bobWaitsP1))).
  { vm_compute. apply NoDup_singleton. }
  assert (Hres : resultOf run = Some result) by (vm_compute; reflexivity).
  assert (Hok : ReturnResult.ok result = true) by reflexivity.
  split; [exact Hnd|]. split; [exact Hres|]. split; [exact Hok|].
  exact (returnResource_no_idle_with_queue "P1" "alice" "a2" 3000 noMcp
           bobWaitsP1 result Hnd Hres Hok).
Defined.

(** ** The daily snapshot *)

Lemma filter_none {A} (P : A -> Prop) `{!forall x, Decision (P x)} (l : list A) :
  (forall x, x ∈ l -> ~ P x) -> filter P l = [].
Proof.
  induction l as [|x l IH]; [done|]. intros Hno.
  rewrite filter_cons_False by (apply Hno, list_elem_of_here).
  apply IH. intros y Hy. apply Hno. by apply list_elem_of_further.
Qed.

Section Snapshot.
Variables (s : ResourceAllocationState) (date : string).





Lemma logResource_unique log r :
  uniqueLog log -> uniqueLog (logResource s date log r).
Proof.
  intros Huniq. unfold logResource.
  destruct (Array_some _ log) eqn:E; [done|].
  intros rid d. unfold entriesFor. rewrite filter_app, length_app.
  specialize (Huniq rid d). unfold entriesFor in Huniq.
  destruct (decide (Resource.id r = rid /\ date = d)) as [[<- <-]|Hne].
  - rewrite filter_cons_True by done. simpl.
    rewrite filter_none; [done|].
    exact (proj1 (Array_some_false _ log) E).
  - rewrite filter_cons_False by (simpl; tauto). simpl. lia.
Qed.

Lemma snapshot_unique rs log :
  uniqueLog log -> uniqueLog (foldl (logResource s date) log rs).
Proof.
  revert log. induction rs as [|r rs IH]; intros log Huniq; simpl; [done|].
  by apply IH, logResource_unique.
Qed.

End Snapshot.

Section SnapshotRuns.
Variable dateParse : string -> option Z.

Lemma checkReturnReminders_log now today mcp s :
  utilizationLog (store (checkReturnReminders dateParse now today mcp s))
  = foldl (logResource s today) (utilizationLog s) (resources s).
Proof.
  by destruct (checkReturnReminders_run dateParse now today mcp s)
    as (n' & _ & ->).
Qed.

(** Only the sweep writes the log. *)
Lemma step_log s mcp op :
  utilizationLog (step dateParse s (mcp, op))
  = match op with
    | OpCheckReturnReminders now today =>
        foldl (logResource s today) (utilizationLog s) (resources s)
    | _ => utilizationLog s
    end.
Proof.
  pose proof (step_cases dateParse s mcp op) as Hstep.
  destruct op as [rid uid due newId now|rid uid newId now| | | | |now today];
    rewrite Hstep; try done.
  - destruct (requestResource_store rid uid due newId now mcp s)
      as [->|[(r & _ & _ & ->)| ->]]; done.
  - destruct (returnResource_store rid uid newId now mcp s)
      as [->|[(a & _ & _ & ->)|(a & next & r & _ & _ & _ & ->)]]; done.
  - apply checkReturnReminders_log.
Qed.



Lemma step_uniqueLog s call :
  uniqueLog (utilizationLog s) ->
  uniqueLog (utilizationLog (step dateParse s call)).
Proof.
  intros Huniq. destruct call as [mcp op]. rewrite step_log.
  destruct op; try done. by apply snapshot_unique.
Qed.

Lemma runOps_uniqueLog calls s :
  uniqueLog (utilizationLog s) ->
  uniqueLog (utilizationLog (runOps dateParse calls s)).
Proof.
  unfold runOps. revert s.
  induction calls as [|c calls IH]; intros s Huniq; simpl; [done|].
  by apply IH, step_uniqueLog.
Qed.



End SnapshotRuns.

(** The log of the seeded state is empty, and uniqueness of its
    (resource, date) pairs is kept by every operation. *)
Lemma reachable_uniqueLog dateParse calls :
  uniqueLog (utilizationLog (runOps dateParse calls seededState)).
Proof. apply runOps_uniqueLog. intros rid d. simpl. lia. Qed.



(** ** The stable sort *)

Section SortFacts.
Context {A : Type} (key : A -> Z).

Lemma sort_insert_sorted x l :
  StronglySorted (ascending key) l ->
  StronglySorted (ascending key) (sort_insert key x l).
Proof.
  induction l as [|y l IH]; intros Hs; simpl.
  { by repeat constructor. }
  apply StronglySorted_cons in Hs as [Hy Hs].
  destruct (decide (key x <= key y)%Z) as [Hle|Hgt].
  - apply StronglySorted_cons. split; [|by apply StronglySorted_cons].
    constructor; [done|].
    eapply Forall_impl; [exact Hy|]. unfold ascending. intros z Hz. lia.
  - apply StronglySorted_cons. split; [|by apply IH].
    rewrite sort_insert_perm. constructor; [|done]. unfold ascending. lia.
Qed.

Lemma Array_sort_sorted l : StronglySorted (ascending key) (Array_sort key l).
Proof.
  induction l as [|x l IH]; simpl; [constructor|].
  by apply sort_insert_sorted.
Qed.

(** An element no later than all of [l] goes in front. *)
Lemma sort_insert_front x l :
  Forall (ascending key x) l -> sort_insert key x l = x :: l.
Proof.
  destruct l as [|y l]; [done|]. intros Hall. simpl.
  apply Forall_cons in Hall as [Hy _]. by rewrite decide_True.
Qed.

Section Filtering.
Context (P : A -> Prop) `{!forall x, Decision (P x)}.

Lemma filter_sort_insert_False x l :
  ~ P x -> filter P (sort_insert key x l) = filter P l.
Proof.
  intros HP. induction l as [|y l IH]; simpl.
  { by rewrite filter_cons_False. }
  destruct (decide (key x <= key y)%Z).
  - by rewrite filter_cons_False.
  - destruct (decide (P y)).
    + by rewrite !filter_cons_True, IH.
    + by rewrite !filter_cons_False, IH.
Qed.

Lemma filter_sort_insert_True x l :
  P x -> StronglySorted (ascending key) l ->
  filter P (sort_insert key x l) = sort_insert key x (filter P l).
Proof.
  intros HP. induction l as [|y l IH]; intros Hs; simpl.
  { by rewrite filter_cons_True. }
  apply StronglySorted_cons in Hs as [Hy Hs].
  destruct (decide (key x <= key y)%Z) as [Hle|Hgt].
  - rewrite filter_cons_True by done.
    destruct (decide (P y)).
    + rewrite filter_cons_True by done. simpl. by rewrite decide_True.
    + rewrite filter_cons_False by done.
      rewrite sort_insert_front; [done|].
      apply Forall_forall. intros z Hz.
      apply list_elem_of_filter in Hz as [_ Hz].
      rewrite Forall_forall in Hy. specialize (Hy z Hz).
      unfold ascending in *. lia.
  - destruct (decide (P y)).
    + rewrite !filter_cons_True by done. simpl.
      rewrite decide_False by done. by rewrite IH.
    + rewrite !filter_cons_False by done. by apply IH.
Qed.

(** Sorting commutes with filtering: the sort is stable. *)
Lemma Array_sort_filter l :
  Array_sort key (filter P l) = filter P (Array_sort key l).
Proof.
  induction l as [|x l IH]; [done|]. simpl.
  destruct (decide (P x)).
  - rewrite filter_cons_True by done. simpl. rewrite IH.
    by rewrite filter_sort_insert_True by (done || apply Array_sort_sorted).
  - rewrite filter_cons_False by done.
    by rewrite filter_sort_insert_False.
Qed.
End Filtering.
End SortFacts.

(** ** FIFO promotion *)

Lemma getNextWaitlistEntry_queue s rid :
  getNextWaitlistEntry s rid = head (queueOf s rid).
Proof. reflexivity. Qed.

Lemma filter_filter_comm {A} (P Q : A -> Prop) `{!forall x, Decision (P x)}
    `{!forall x, Decision (Q x)} (l : list A) :
  filter P (filter Q l) = filter Q (filter P l).
Proof.
  induction l as [|x l IH]; [done|].
  destruct (decide (P x)), (decide (Q x));
    repeat (rewrite ?filter_cons_True, ?filter_cons_False by done);
    by rewrite ?IH.
Qed.

Lemma filter_agree {A} (P Q : A -> Prop) `{!forall x, Decision (P x)}
    `{!forall x, Decision (Q x)} (l : list A) :
  (forall x, x ∈ l -> P x <-> Q x) -> filter P l = filter Q l.
Proof.
  induction l as [|x l IH]; [done|]. intros Hagree.
  assert (Hl : filter P l = filter Q l).
  { apply IH. intros y Hy. apply Hagree. by apply list_elem_of_further. }
  pose proof (Hagree x (list_elem_of_here _ _)) as Hx.
  destruct (decide (P x)).
  - rewrite !filter_cons_True by tauto. by rewrite Hl.
  - rewrite !filter_cons_False by tauto. done.
Qed.

(** With pairwise distinct ids, dropping the entries that carry the id of
    [next] drops [next] and nothing else. *)
Lemma drop_by_id next (l : list WaitlistEntry.t) :
  NoDup (map WaitlistEntry.id l) -> next ∈ l ->
  filter (fun w => WaitlistEntry.id w ≠ WaitlistEntry.id next) l
  = filter (fun w => w ≠ next) l.
Proof.
  intros Hnd Hnext. apply filter_agree. intros w Hw. split.
  - intros Hid ->. done.
  - intros Hne Hid. apply Hne.
    apply list_elem_of_lookup in Hw as [i Hi].
    apply list_elem_of_lookup in Hnext as [j Hj].
    assert (i = j) as ->.
    { change (NoDup (WaitlistEntry.id <$> l)) in Hnd.
      eapply NoDup_lookup; [exact Hnd| |].
      - rewrite list_lookup_fmap, Hi. done.
      - rewrite list_lookup_fmap, Hj. simpl. by rewrite Hid. }
    congruence.
Qed.

Lemma filter_all {A} (P : A -> Prop) `{!forall x, Decision (P x)} (l : list A) :
  (forall x, x ∈ l -> P x) -> filter P l = l.
Proof.
  induction l as [|x l IH]; [done|]. intros Hall.
  rewrite filter_cons_True by (apply Hall, list_elem_of_here).
  f_equal. apply IH. intros y Hy. apply Hall. by apply list_elem_of_further.
Qed.

Lemma unique_ids_filter (P : WaitlistEntry.t -> Prop)
    `{!forall x, Decision (P x)} l :
  NoDup (map WaitlistEntry.id l) -> NoDup (map WaitlistEntry.id (filter P l)).
Proof.
  change (NoDup (WaitlistEntry.id <$> l)
          -> NoDup (WaitlistEntry.id <$> filter P l)).
  intros Hnd. eapply sublist_NoDup; [exact Hnd|].
  apply fmap_sublist, sublist_filter.
Qed.

Lemma unique_ids_perm (l k : list WaitlistEntry.t) :
  l ≡ₚ k -> NoDup (map WaitlistEntry.id l) -> NoDup (map WaitlistEntry.id k).
Proof.
  change (l ≡ₚ k -> NoDup (WaitlistEntry.id <$> l)
          -> NoDup (WaitlistEntry.id <$> k)).
  intros Hp. by rewrite Hp.
Qed.

(** Promoting the head of the queue leaves its tail as the queue. *)
Lemma queueOf_after_promotion s rid next rest s' :
  NoDup (map WaitlistEntry.id (waitlist s)) ->
  queueOf s rid = next :: rest ->
  waitlist s'
  = filter (fun w => WaitlistEntry.id w ≠ WaitlistEntry.id next) (waitlist s) ->
  queueOf s' rid = rest.
Proof.
  intros Hnd Hq Hw. unfold queueOf in *. rewrite Hw.
  rewrite filter_filter_comm, Array_sort_filter, Hq.
  assert (Hqnd : NoDup (map WaitlistEntry.id (next :: rest))).
  { rewrite <- Hq. eapply unique_ids_perm; [symmetry; apply Array_sort_perm|].
    by apply unique_ids_filter. }
  simpl in Hqnd. apply NoDup_cons in Hqnd as [Hnotin _].
  rewrite filter_cons_False by (intros Hne; by apply Hne).
  apply filter_all. intros w Hin Hid. apply Hnotin. rewrite <- Hid.
  apply list_elem_of_In, in_map, list_elem_of_In, Hin.
Qed.

(** What one successful return does to the queue of its resource. *)
Lemma returnResource_promotes rid uid newId now mcp s :
  NoDup (map WaitlistEntry.id (waitlist s)) ->
  succeeded (returnResource rid uid newId now mcp s) ->
  let run := returnResource rid uid newId now mcp s in
  ReturnResult.autoAssigned <$> resultOf run
  = Some (WaitlistEntry.userId <$> head (queueOf s rid))
  /\ waitlist (store run)
     = filter (fun w => w ∉ take 1 (queueOf s rid)) (waitlist s)
  /\ queueOf (store run) rid = tail (queueOf s rid)
  /\ NoDup (map WaitlistEntry.id (waitlist (store run)))
  /\ (forall w, head (queueOf s rid) = Some w ->
        Assignment.mk newId rid (WaitlistEntry.userId w) now None active
        ∈ assignments (store run)).
Proof.
  intros Hnd (result & Hres & Hok) run. subst run.
  destruct (Array_find (holds rid uid) (assignments s)) as [a|] eqn:Hfind.
  2:{ rewrite (returnResource_none_run _ _ _ _ _ _ Hfind) in Hres.
      injection Hres as <-. done. }
  destruct (getNextWaitlistEntry s rid) as [next|] eqn:Hnext.
  - destruct (Array_find (fun r => Resource.id r = rid) (resources s))
      as [r|] eqn:Hcat.
    2:{ by rewrite (returnResource_throw_run _ _ _ _ _ _ _ _ Hfind Hnext Hcat)
          in Hres. }
    rewrite (returnResource_promote_run _ _ _ _ _ _ _ _ _ Hfind Hnext Hcat).
    pose proof (getNextWaitlistEntry_Some _ _ _ Hnext) as [Hnin _].
    rewrite getNextWaitlistEntry_queue in Hnext.
    destruct (queueOf s rid) as [|x rest] eqn:Hq; [done|].
    injection Hnext as ->. simpl.
    assert (Hdrop :
      filter (fun w => WaitlistEntry.id w ≠ WaitlistEntry.id next) (waitlist s)
      = filter (fun w => w ∉ [next]) (waitlist s)).
    { rewrite drop_by_id by done. apply list_filter_iff. intros w.
      rewrite list_elem_of_singleton. done. }
    split; [done|]. split; [by rewrite Hdrop|]. split.
    { by apply (queueOf_after_promotion s rid next rest). }
    split; [by apply unique_ids_filter|].
    intros w [= <-]. apply elem_of_app. right. apply list_elem_of_here.
  - rewrite (returnResource_plain_run _ _ _ _ _ _ _ Hfind Hnext).
    rewrite getNextWaitlistEntry_queue in Hnext.
    destruct (queueOf s rid) as [|x rest] eqn:Hq; [|done]. simpl.
    split; [done|]. split.
    { symmetry. apply filter_all. intros w _. apply not_elem_of_nil. }
    split; [exact Hq|]. split; [done|]. done.
Qed.

Lemma not_in_take_step {A} (q : list A) (i : nat) (x : A) :
  ((x ∉ take (S i) (tail q)) /\ (x ∉ take 1 q)) <-> (x ∉ take (S (S i)) q).
Proof.
  destruct q as [|a q].
  - split; [intros [_ ?]; done|intros ?; split; apply not_elem_of_nil].
  - change (take 1 (a :: q)) with [a].
    change (take (S (S i)) (a :: q)) with (a :: take (S i) q).
    change (tail (a :: q)) with q.
    rewrite !not_elem_of_cons. pose proof (not_elem_of_nil x). tauto.
Qed.

(** The [i]-th of a series of successful returns promotes the [i]-th entry
    of the initial queue. *)
Lemma returnRuns_promote rid calls : forall s i c run,
  NoDup (map WaitlistEntry.id (waitlist s)) ->
  Forall succeeded (returnRuns rid calls s) ->
  calls !! i = Some c ->
  returnRuns rid calls s !! i = Some run ->
  ReturnResult.autoAssigned <$> resultOf run
  = Some (WaitlistEntry.userId <$> queueOf s rid !! i)
  /\ waitlist (store run)
     = filter (fun w => w ∉ take (S i) (queueOf s rid)) (waitlist s)
  /\ (forall w, queueOf s rid !! i = Some w ->
        Assignment.mk (callNewId c) rid (WaitlistEntry.userId w) (callNow c)
          None active
        ∈ assignments (store run)).
Proof.
  induction calls as [|c0 calls IH]; intros s i c run Hnd Hall Hc Hrun;
    [done|].
  simpl in Hall, Hrun. apply Forall_cons in Hall as [Hfirst Hall].
  destruct (returnResource_promotes rid (callUser c0) (callNewId c0)
              (callNow c0) (callMcp c0) s Hnd Hfirst)
    as (Hauto & Hwl & Hq & Hnd' & Hasg).
  destruct i as [|i].
  - simpl in Hc, Hrun. injection Hc as <-. injection Hrun as <-.
    rewrite <- head_lookup. done.
  - simpl in Hc, Hrun.
    destruct (IH _ i c run Hnd' Hall Hc Hrun) as (Hauto' & Hwl' & Hasg').
    rewrite Hq, lookup_tail in Hauto', Hasg'. rewrite Hq, Hwl in Hwl'.
    split; [done|]. split; [|done].
    rewrite Hwl', list_filter_filter. apply list_filter_iff.
    intros w. apply not_in_take_step.
Qed.

(** C3: let the waitlist ids be pairwise distinct (what [generateId] is for)
    and let [queue] be the waitlist entries of the resource in ascending
    [requestedAt] order, entries of equal time in insertion order.  In any
    series of successful [returnResource] calls for the resource, the
    [i]-th call promotes the [i]-th entry of [queue]: that entry is no later
    than any entry of the resource still waiting, its user is reported as
    auto-assigned and receives an active assignment, and the waitlist
    afterwards is the initial one without the first [i+1] entries of
    [queue], so exactly that entry has been removed by this call.  Once the
    queue is used up a return auto-assigns nobody. *)
Theorem fifo_promotion rid calls s i c run :
  NoDup (map WaitlistEntry.id (waitlist s)) ->
  Forall succeeded (returnRuns rid calls s) ->
  calls !! i = Some c ->
  returnRuns rid calls s !! i = Some run ->
  let queue := queueOf s rid in
  StronglySorted (ascending WaitlistEntry.requestedAt) queue
  /\ queue ≡ₚ filter (fun w => WaitlistEntry.resourceId w = rid) (waitlist s)
  /\ ReturnResult.autoAssigned <$> resultOf run
     = Some (WaitlistEntry.userId <$> queue !! i)
  /\ waitlist (store run)
     = filter (fun w => w ∉ take (S i) queue) (waitlist s)
  /\ (forall w, queue !! i = Some w ->
        Assignment.mk (callNewId c) rid (WaitlistEntry.userId w) (callNow c)
          None active
        ∈ assignments (store run)
        /\ forall w', w' ∈ waitlist s -> WaitlistEntry.resourceId w' = rid ->
             w' ∉ take i queue ->
             (WaitlistEntry.requestedAt w <= WaitlistEntry.requestedAt w')%Z).
Proof.
  intros Hnd Hall Hc Hrun queue.
  destruct (returnRuns_promote rid calls s i c run Hnd Hall Hc Hrun)
    as (Hauto & Hwl & Hasg).
  pose proof (Array_sort_sorted WaitlistEntry.requestedAt
                (filter (fun w => WaitlistEntry.resourceId w = rid)
                        (waitlist s))) as Hsorted.
  pose proof (Array_sort_perm WaitlistEntry.requestedAt
                (filter (fun w => WaitlistEntry.resourceId w = rid)
                        (waitlist s))) as Hperm.
  fold (queueOf s rid) in Hsorted, Hperm. fold queue in Hsorted, Hperm.
  split; [done|]. split; [done|]. split; [done|]. split; [done|].
  intros w Hw. split; [by apply Hasg|].
  intros w' Hin Hrid Hnot.
  assert (Hq : w' ∈ queue).
  { rewrite Hperm. by apply list_elem_of_filter. }
  rewrite <- (take_drop i queue) in Hq, Hsorted.
  apply elem_of_app in Hq as [Hq|Hq]; [done|].
  apply StronglySorted_app_1_r in Hsorted.
  rewrite (drop_S _ _ _ Hw) in Hq, Hsorted.
  apply StronglySorted_cons in Hsorted as [Hle _].
  apply elem_of_cons in Hq as [->|Hq]; [done|].
  rewrite Forall_forall in Hle. by apply Hle.
Qed.

Lemma fifo_promotion_witness :
  let calls := [ Build_ReturnCall noMcp "alice" "a2" 4000;
                 Build_ReturnCall noMcp "bob" "a3" 5000 ] in
  let c := Build_ReturnCall noMcp "bob" "a3" 5000 in
  let run :=
    returnResource "P1" "bob" "a3" 5000 noMcp
      (store (returnResource "P1" "alice" "a2" 4000 noMcp carolWaitsP1)) in
  let queue := queueOf carolWaitsP1 "P1" in
  (NoDup (map WaitlistEntry.id (waitlist carolWaitsP1))
   /\ Forall succeeded (returnRuns "P1" calls carolWaitsP1)
   /\ calls !! 1 = Some c
   /\ returnRuns "P1" calls carolWaitsP1 !! 1 = Some run)
  /\ StronglySorted (ascending WaitlistEntry.requestedAt) queue
  /\ queue ≡ₚ filter (fun w => WaitlistEntry.resourceId w = "P1")
                     (waitlist carolWaitsP1)
  /\ ReturnResult.autoAssigned <$> resultOf run
     = Some (WaitlistEntry.userId <$> queue !! 1)
  /\ waitlist (store run)
     = filter (fun w => w ∉ take 2 queue) (waitlist carolWaitsP1)
  /\ (forall w, queue !! 1 = Some w ->
        Assignment.mk (callNewId c) "P1" (WaitlistEntry.userId w) (callNow c)
          None active
        ∈ assignments (store run)
        /\ forall w', w' ∈ waitlist carolWaitsP1 ->
             WaitlistEntry.resourceId w' = "P1" ->
             w' ∉ take 1 queue ->
             (WaitlistEntry.requestedAt w <= WaitlistEntry.requestedAt w')%Z).
Proof.
  intros calls c run queue.
  assert (Hnd : NoDup (map WaitlistEntry.id (waitlist carolWaitsP1))).
  { vm_compute. apply NoDup_cons. split; [|apply NoDup_singleton].
    rewrite list_elem_of_singleton. discriminate. }
  assert (Hall : Forall succeeded (returnRuns "P1" calls carolWaitsP1)).
  { repeat constructor; eexists; (split; [vm_compute; reflexivity|reflexivity]). }
  assert (Hc : calls !! 1 = Some c) by reflexivity.
  assert (Hrun : returnRuns "P1" calls carolWaitsP1 !! 1 = Some run)
    by reflexivity.
  split; [done|].
  exact (fifo_promotion "P1" calls carolWaitsP1 1 c run Hnd Hall Hc Hrun).
Defined.

(** ** Notifications and the state commit *)





(** The waitlist branch under a connected server: commit, then tool call. *)
Example requestResource_trace_shape :
  exists s' arguments,
    events (requestResource "P1" "bob" None "w1" 2000 slackReady aliceHoldsP1)
    = [EvSetState s'; EvCallTool "slack" "send_message" arguments].
Proof. do 2 eexists. vm_compute. reflexivity. Qed.


(** ** Generated ids stay distinct *)

Lemma released_ids a l :
  map Assignment.id (released a l) = map Assignment.id l.
Proof.
  induction l as [|x l IH]; [done|]. simpl. rewrite IH.
  by destruct (decide (Assignment.id x = Assignment.id a)).
Qed.

Lemma NoDup_snoc_fresh (l : list string) (n : string) :
  NoDup l -> n ∉ l -> NoDup (l ++ [n]).
Proof.
  intros Hnd Hn. apply NoDup_app. split; [done|]. split.
  - intros x Hx Hx'. apply list_elem_of_singleton in Hx' as ->. done.
  - apply NoDup_singleton.
Qed.

Section FreshIds.
Variable dateParse : string -> option Z.

(** The ledger keeps its ids or gains the generated one; the waitlist
    keeps its ids, loses some or gains the generated one. *)
Lemma step_ids s call :
  (map Assignment.id (assignments (step dateParse s call))
   = map Assignment.id (assignments s)
   \/ exists n, generatedId call = Some n
        /\ map Assignment.id (assignments (step dateParse s call))
           = map Assignment.id (assignments s) ++ [n])
  /\ (map WaitlistEntry.id (waitlist (step dateParse s call))
        `sublist_of` map WaitlistEntry.id (waitlist s)
      \/ exists n, generatedId call = Some n
           /\ map WaitlistEntry.id (waitlist (step dateParse s call))
              = map WaitlistEntry.id (waitlist s) ++ [n]).
Proof.
  destruct call as [mcp op].
  pose proof (step_cases dateParse s mcp op) as Hstep.
  destruct op as [rid uid due newId now|rid uid newId now| | | | |now today];
    rewrite Hstep; try (split; by left).
  - destruct (requestResource_store rid uid due newId now mcp s)
      as [->|[(r & _ & _ & ->)| ->]]; simpl.
    + split; by left.
    + split; [right|by left]. exists newId. by rewrite map_app.
    + split; [by left|right]. exists newId. by rewrite map_app.
  - destruct (returnResource_store rid uid newId now mcp s)
      as [->|[(a & _ & _ & ->)|(a & next & r & _ & _ & _ & ->)]]; simpl.
    + split; by left.
    + split; left; [apply released_ids|done].
    + split.
      * right. exists newId. by rewrite map_app, released_ids.
      * left. apply (fmap_sublist WaitlistEntry.id), sublist_filter.
  - destruct (checkReturnReminders_run dateParse now today mcp s)
      as (n' & _ & ->).
    split; by left.
Qed.

Lemma step_uniqueIds s call :
  uniqueIds s ->
  (forall n, generatedId call = Some n -> n ∉ idsOf s) ->
  uniqueIds (step dateParse s call)
  /\ forall x, x ∈ idsOf (step dateParse s call) ->
       x ∈ idsOf s \/ generatedId call = Some x.
Proof.
  intros [Ha Hw] Hfresh. unfold uniqueIds, idsOf in *.
  destruct (step_ids s call) as [Hasg Hwl].
  assert (Hfa : forall n, generatedId call = Some n ->
                  n ∉ map Assignment.id (assignments s)).
  { intros n Hn Hin. apply (Hfresh n Hn), elem_of_app. by left. }
  assert (Hfw : forall n, generatedId call = Some n ->
                  n ∉ map WaitlistEntry.id (waitlist s)).
  { intros n Hn Hin. apply (Hfresh n Hn), elem_of_app. by right. }
  split; [split|].
  - destruct Hasg as [->|(n & Hn & ->)]; [done|].
    apply NoDup_snoc_fresh; [done|by apply Hfa].
  - destruct Hwl as [Hsub|(n & Hn & ->)]; [by eapply sublist_NoDup|].
    apply NoDup_snoc_fresh; [done|by apply Hfw].
  - intros x Hx. apply elem_of_app in Hx as [Hx|Hx].
    + destruct Hasg as [Heq|(n & Hn & Heq)]; rewrite Heq in Hx.
      * left. apply elem_of_app. by left.
      * apply elem_of_app in Hx as [Hx|Hx].
        -- left. apply elem_of_app. by left.
        -- apply list_elem_of_singleton in Hx as ->. by right.
    + destruct Hwl as [Hsub|(n & Hn & Heq)].
      * left. apply elem_of_app. right. by eapply elem_of_sublist.
      * rewrite Heq in Hx. apply elem_of_app in Hx as [Hx|Hx].
        -- left. apply elem_of_app. by right.
        -- apply list_elem_of_singleton in Hx as ->. by right.
Qed.

Lemma runOps_uniqueIds calls : forall s,
  uniqueIds s ->
  NoDup (omap generatedId calls) ->
  (forall x, x ∈ idsOf s -> x ∉ omap generatedId calls) ->
  uniqueIds (runOps dateParse calls s).
Proof.
  unfold runOps.
  induction calls as [|c calls IH]; intros s Huniq Hnd Hdisj; simpl; [done|].
  simpl in Hnd, Hdisj.
  assert (Hfresh : forall n, generatedId c = Some n -> n ∉ idsOf s).
  { intros n Hn Hin. apply (Hdisj n Hin). rewrite Hn. apply list_elem_of_here. }
  destruct (step_uniqueIds s c Huniq Hfresh) as [Huniq' Hids].
  apply IH; [done| |].
  - destruct (generatedId c); [by apply NoDup_cons in Hnd as [_ ?]|done].
  - intros x Hx Hin. destruct (Hids x Hx) as [Hold|Hnew].
    + apply (Hdisj x Hold). destruct (generatedId c); [|done].
      by apply list_elem_of_further.
    + rewrite Hnew in Hnd. by apply NoDup_cons in Hnd as [? _].
Qed.
End FreshIds.

(** When [generateId()] never repeats along a run from the seeded state,
    assignment ids and waitlist ids are pairwise distinct at every point. *)
Lemma reachable_unique_ids dateParse calls :
  NoDup (omap generatedId calls) ->
  uniqueIds (runOps dateParse calls seededState).
Proof.
  intros Hnd. apply runOps_uniqueIds; [|done|].
  - split; apply NoDup_nil_2.
  - intros x Hx. by apply elem_of_nil in Hx.
Qed.

(** * Further properties of the agent *)

(** ** Seeding *)

(** Seeding fills an empty catalog with the four defaults and never
    replaces a catalog that has an entry; it touches no other collection,
    and seeding an already seeded state changes and emits nothing. *)
Theorem seedResourcesIfEmpty_idempotent mcp mcp' s :
  let s1 := store (seedResourcesIfEmpty mcp s) in
  completion (seedResourcesIfEmpty mcp s) = Normal tt
  /\ resources s1
     = (if decide (resources s = []) then DEFAULT_RESOURCES else resources s)
  /\ assignments s1 = assignments s
  /\ waitlist s1 = waitlist s
  /\ utilizationLog s1 = utilizationLog s
  /\ notifications s1 = notifications s
  /\ conversationByUser s1 = conversationByUser s
  /\ seedResourcesIfEmpty mcp' s1 = mkRun (Normal tt) s1 [].
Proof.
  unfold seedResourcesIfEmpty. agent_unfold. simpl.
  destruct (decide (0 < length (resources s))) as [Hpos|Hzero] eqn:Hdec;
    simpl.
  - rewrite Hdec.
    rewrite decide_False by (by destruct (resources s); [simpl in Hpos; lia|]).
    repeat split; done.
  - rewrite decide_True by (destruct (resources s); [done|simpl in Hzero; lia]).
    repeat split; done.
Qed.

(** ** The notifier *)

#[local] Transparent notifyViaMcp.

Lemma notifyLoop_counts userId message order mcp s :
  length (filter isCallTool (events (notifyLoop userId message order mcp s)))
  <= length order
  /\ length (filter isConsoleError
               (events (notifyLoop userId message order mcp s)))
     <= length (filter isCallTool
                  (events (notifyLoop userId message order mcp s)))
  /\ Forall (fun e => isCallTool e \/ isConsoleError e)
            (events (notifyLoop userId message order mcp s)).
Proof.
  induction order as [|c rest IH]; [by repeat split; simpl; constructor|].
  simpl. agent_unfold. simpl.
  destruct (decide (connectionState mcp (serverId c) = Some "ready")).
  2:{ destruct IH as (H1 & H2 & H3). repeat split; [lia|done|done]. }
  simpl.
  destruct (callTool mcp (serverId c) (toolName c) (args c userId message));
    simpl.
  - repeat split; [lia|lia|]. repeat constructor.
  - destruct IH as (H1 & H2 & H3).
    rewrite (filter_cons_False isCallTool (EvConsoleError _))
      by (simpl; tauto).
    repeat split; [lia|lia|].
    constructor; [by left|]. constructor; [by right|done].
Qed.

(** The notifier is best effort: it never throws and never touches the
    store; its trace holds tool calls and error logs only, at most one
    tool call per configured server, and it logs no more errors than it
    made calls. *)
Theorem notifyViaMcp_best_effort userId message prefer mcp s :
  let run := notifyViaMcp userId message prefer mcp s in
  completion run = Normal tt
  /\ store run = s
  /\ Forall (fun e => isCallTool e \/ isConsoleError e) (events run)
  /\ length (filter isCallTool (events run)) <= 2
  /\ length (filter isConsoleError (events run))
     <= length (filter isCallTool (events run)).
Proof.
  intros run. subst run.
  destruct (notifyViaMcp_run userId message prefer mcp s) as (Hc & Hs & _).
  split; [done|]. split; [done|].
  unfold notifyViaMcp. agent_unfold. simpl.
  destruct (decide (length (listServers mcp) = 0)); simpl.
  { repeat split; [constructor|lia|lia]. }
  pose proof (notifyLoop_counts userId message
                (if decide (prefer = Some "email")
                 then reverse MCP_NOTIFY_CONFIG else MCP_NOTIFY_CONFIG) mcp s)
    as (H1 & H2 & H3).
  assert (Hlen : length (if decide (prefer = Some "email")
                         then reverse MCP_NOTIFY_CONFIG
                         else MCP_NOTIFY_CONFIG) = 2)
    by (by destruct (decide (prefer = Some "email"))).
  rewrite Hlen in H1. simpl. done.
Qed.

(** With no server registered, or none of the two connected, the notifier
    attempts nothing and logs nothing. *)
Theorem notifyViaMcp_silent_without_transport userId message prefer mcp s :
  listServers mcp = []
  \/ (connectionState mcp "slack" ≠ Some "ready"
      /\ connectionState mcp "email" ≠ Some "ready") ->
  notifyViaMcp userId message prefer mcp s = mkRun (Normal tt) s [].
Proof.
  intros Hno. unfold notifyViaMcp. agent_unfold. simpl.
  destruct (decide (length (listServers mcp) = 0)); [done|].
  destruct Hno as [Hnil|[Hslack Hemail]]; [by rewrite Hnil in *|].
  destruct (decide (prefer = Some "email")); simpl; agent_unfold; simpl;
    rewrite !decide_False by done; done.
Qed.

Lemma notifyViaMcp_silent_without_transport_witness :
  (listServers noMcp = []
   \/ (connectionState noMcp "slack" ≠ Some "ready"
       /\ connectionState noMcp "email" ≠ Some "ready"))
  /\ notifyViaMcp "bob" "hello" None noMcp seededState
     = mkRun (Normal tt) seededState [].
Proof.
  assert (H : listServers noMcp = []
              \/ (connectionState noMcp "slack" ≠ Some "ready"
                  /\ connectionState noMcp "email" ≠ Some "ready"))
    by (left; reflexivity).
  split; [exact H|].
  exact (notifyViaMcp_silent_without_transport "bob" "hello" None noMcp
           seededState H).
Defined.

(** With both servers connected and no preference for e-mail, a Slack call
    that rejects is logged and the same message goes to the e-mail server,
    addressed to the same user; a rejection there is logged as well. *)
Theorem notifyViaMcp_falls_back userId message prefer mcp s :
  prefer ≠ Some "email" ->
  listServers mcp ≠ [] ->
  connectionState mcp "slack" = Some "ready" ->
  connectionState mcp "email" = Some "ready" ->
  callTool mcp "slack" "send_message"
    {[ "channel" := userId; "message" := message ]} = false ->
  events (notifyViaMcp userId message prefer mcp s)
  = [ EvCallTool "slack" "send_message"
        {[ "channel" := userId; "message" := message ]};
      notifyFailed "slack";
      EvCallTool "email" "send_email" {[ "to" := userId; "body" := message ]} ]
    ++ (if callTool mcp "email" "send_email"
             {[ "to" := userId; "body" := message ]}
        then [] else [notifyFailed "email"]).
Proof.
  intros Hpref Hservers Hslack Hemail Hreject.
  unfold notifyViaMcp. agent_unfold. simpl.
  rewrite decide_False by (by destruct (listServers mcp)).
  rewrite (decide_False (P := prefer = Some "email")) by done.
  simpl. agent_unfold. simpl.
  rewrite !decide_True by done. simpl. rewrite Hreject. simpl.
  rewrite ?decide_True by done. simpl. unfold notifyFailed.
  by destruct (callTool mcp "email" "send_email" _).
Qed.

Lemma notifyViaMcp_falls_back_witness :
  (None ≠ Some "email"
   /\ listServers slackDown ≠ []
   /\ connectionState slackDown "slack" = Some "ready"
   /\ connectionState slackDown "email" = Some "ready"
   /\ callTool slackDown "slack" "send_message"
        {[ "channel" := "bob"; "message" := "hello" ]} = false)
  /\ events (notifyViaMcp "bob" "hello" None slackDown seededState)
     = [ EvCallTool "slack" "send_message"
           {[ "channel" := "bob"; "message" := "hello" ]};
         notifyFailed "slack";
         EvCallTool "email" "send_email" {[ "to" := "bob"; "body" := "hello" ]} ]
       ++ (if callTool slackDown "email" "send_email"
                {[ "to" := "bob"; "body" := "hello" ]}
           then [] else [notifyFailed "email"]).
Proof.
  assert (H1 : @None string ≠ Some "email") by done.
  assert (H2 : listServers slackDown ≠ []) by done.
  assert (H3 : connectionState slackDown "slack" = Some "ready")
    by reflexivity.
  assert (H4 : connectionState slackDown "email" = Some "ready")
    by reflexivity.
  assert (H5 : callTool slackDown "slack" "send_message"
                 {[ "channel" := "bob"; "message" := "hello" ]} = false)
    by reflexivity.
  split; [done|].
  exact (notifyViaMcp_falls_back "bob" "hello" None slackDown seededState
           H1 H2 H3 H4 H5).
Defined.

#[local] Opaque notifyViaMcp.

(** ** The catalog is fixed *)

(** No sequence of operations adds, removes or alters a catalog resource. *)
Theorem catalog_never_changes dateParse calls s :
  resources (runOps dateParse calls s) = resources s.
Proof. apply runOps_resources. Qed.

(** ** What [requestResource] leaves *)

Lemma requestResource_store_cases rid uid due newId now mcp s :
  let s' := store (requestResource rid uid due newId now mcp s) in
  (Array_find (fun r => Resource.id r = rid) (resources s) = None /\ s' = s)
  \/ (exists r,
        Array_find (fun r => Resource.id r = rid) (resources s) = Some r
        /\ (Z.of_nat (activeAssignmentCount s rid) < Resource.quantity r)%Z
        /\ s' = with_assignments s
                  (assignments s
                     ++ [Assignment.mk newId rid uid now due active]))
  \/ (exists r,
        Array_find (fun r => Resource.id r = rid) (resources s) = Some r
        /\ ~ (Z.of_nat (activeAssignmentCount s rid) < Resource.quantity r)%Z
        /\ s' = with_waitlist s
                  (waitlist s ++ [WaitlistEntry.mk newId rid uid now None])).
Proof.
  intros s'. subst s'.
  destruct (Array_find (fun r => Resource.id r = rid) (resources s))
    as [r|] eqn:Hfind.
  - destruct (decide (Z.of_nat (activeAssignmentCount s rid)
                      < Resource.quantity r)%Z) as [Hlt|Hge].
    + rewrite (requestResource_granted_run _ _ _ _ _ _ _ _ Hfind Hlt).
      right; left. by exists r.
    + rewrite (requestResource_queued_run _ _ _ _ _ _ _ _ Hfind Hge).
      right; right. by exists r.
  - rewrite (requestResource_unknown_run _ _ _ _ _ _ _ Hfind). by left.
Qed.

(** A request only ever appends: it adds one assignment or one waitlist
    entry when the resource is known and nothing otherwise; it never
    touches the catalog, the utilization log, the in-app notifications or
    the conversation history. *)
Theorem requestResource_only_appends rid uid due newId now mcp s :
  let s' := store (requestResource rid uid due newId now mcp s) in
  resources s' = resources s
  /\ utilizationLog s' = utilizationLog s
  /\ notifications s' = notifications s
  /\ conversationByUser s' = conversationByUser s
  /\ assignments s `prefix_of` assignments s'
  /\ waitlist s `prefix_of` waitlist s'
  /\ length (assignments s') + length (waitlist s')
     = length (assignments s) + length (waitlist s)
       + match Array_find (fun r => Resource.id r = rid) (resources s) with
         | Some _ => 1
         | None => 0
         end.
Proof.
  intros s'. subst s'.
  destruct (requestResource_store_cases rid uid due newId now mcp s)
    as [[Hfind ->]|[(r & Hfind & _ & ->)|(r & Hfind & _ & ->)]];
    rewrite Hfind; simpl; rewrite ?length_app; simpl;
    repeat split; try done; try lia; by apply prefix_app_r.
Qed.

(** ** Nothing throws from the seeded state *)


Section Known.
Variable dateParse : string -> option Z.




End Known.


(** Outside such states the return path can throw: when the caller holds
    the resource, somebody waits for it and the catalog has no resource of
    that id, reading the name of the missing resource throws a TypeError
    before anything is committed or sent; the caller's assignment stays
    active and the entry stays queued. *)
Theorem returnResource_missing_resource_throws
    rid uid newId now mcp s a w :
  a ∈ assignments s ->
  Assignment.resourceId a = rid ->
  Assignment.userId a = uid ->
  Assignment.status a = active ->
  w ∈ waitlist s ->
  WaitlistEntry.resourceId w = rid ->
  (forall r, r ∈ resources s -> Resource.id r ≠ rid) ->
  returnResource rid uid newId now mcp s
  = mkRun (Throw "TypeError: Cannot read properties of undefined (reading 'name')")
          s [].
Proof.
  intros Ha Harid Hauid Hact Hw Hwrid Hno.
  destruct (Array_find_is_Some (holds rid uid) (assignments s) a Ha)
    as [a' Hfind]; [done|].
  destruct (getNextWaitlistEntry s rid) as [next|] eqn:Hnext.
  2:{ by destruct (proj1 (getNextWaitlistEntry_None s rid) Hnext w Hw). }
  apply (returnResource_throw_run _ _ _ _ _ _ a' next); [done..|].
  apply Array_find_None. intros r Hr Hid. by apply (Hno r).
Qed.

Lemma returnResource_missing_resource_throws_witness :
  let a := Assignment.mk "a1" "G7" "alice" 1000 None active in
  let w := WaitlistEntry.mk "w1" "G7" "bob" 2000 None in
  (a ∈ assignments orphanState
   /\ Assignment.resourceId a = "G7"
   /\ Assignment.userId a = "alice"
   /\ Assignment.status a = active
   /\ w ∈ waitlist orphanState
   /\ WaitlistEntry.resourceId w = "G7"
   /\ (forall r, r ∈ resources orphanState -> Resource.id r ≠ "G7"))
  /\ returnResource "G7" "alice" "a2" 3000 noMcp orphanState
     = mkRun (Throw "TypeError: Cannot read properties of undefined (reading 'name')")
             orphanState [].
Proof.
  intros a w.
  assert (H1 : a ∈ assignments orphanState) by apply list_elem_of_here.
  assert (H5 : w ∈ waitlist orphanState) by apply list_elem_of_here.
  assert (H7 : forall r, r ∈ resources orphanState -> Resource.id r ≠ "G7").
  { intros r Hr. by apply elem_of_nil in Hr. }
  split; [done|].
  exact (returnResource_missing_resource_throws "G7" "alice" "a2" 3000 noMcp
           orphanState a w H1 eq_refl eq_refl eq_refl H5 eq_refl H7).
Defined.

(** ** The ledger keeps its history *)

Lemma laterOf_refl a : laterOf a a.
Proof. by repeat split. Qed.

Lemma laterOf_trans a b c : laterOf a b -> laterOf b c -> laterOf a c.
Proof.
  intros (H1 & H2 & H3 & H4 & H5 & H6) (K1 & K2 & K3 & K4 & K5 & K6).
  repeat split; try congruence. intros Hr. by apply K6, H6.
Qed.

Lemma released_lookup a l i x :
  l !! i = Some x ->
  released a l !! i
  = Some (if decide (Assignment.id x = Assignment.id a)
          then markReturned x else x).
Proof.
  intros Hx. unfold released.
  change (map ?f l) with (f <$> l). by rewrite list_lookup_fmap, Hx.
Qed.

Lemma released_later a l i x :
  l !! i = Some x -> exists x', released a l !! i = Some x' /\ laterOf x x'.
Proof.
  intros Hx. rewrite (released_lookup a l i x Hx). eexists. split; [done|].
  destruct (decide (Assignment.id x = Assignment.id a));
    [by repeat split|apply laterOf_refl].
Qed.

Lemma step_history dateParse s call i a :
  assignments s !! i = Some a ->
  exists a', assignments (step dateParse s call) !! i = Some a' /\ laterOf a a'.
Proof.
  intros Ha. destruct call as [mcp op].
  pose proof (step_cases dateParse s mcp op) as Hstep.
  assert (Hsame : exists a', assignments s !! i = Some a' /\ laterOf a a')
    by (exists a; split; [done|apply laterOf_refl]).
  destruct op as [rid uid due newId now|rid uid newId now| | | | |now today];
    rewrite Hstep; try done.
  - destruct (requestResource_store rid uid due newId now mcp s)
      as [->|[(r & _ & _ & ->)| ->]]; [done| |done].
    simpl. exists a. split; [by apply lookup_app_l_Some|apply laterOf_refl].
  - destruct (returnResource_store rid uid newId now mcp s)
      as [->|[(x & _ & _ & ->)|(x & next & r & _ & _ & _ & ->)]]; [done| |];
      simpl.
    + by apply released_later.
    + destruct (released_later x (assignments s) i a Ha) as (a' & Ha' & Hl).
      exists a'. split; [by apply lookup_app_l_Some|done].
  - destruct (checkReturnReminders_run dateParse now today mcp s)
      as (n' & _ & ->).
    done.
Qed.

(** Assignments are history: whatever operations follow, an assignment
    stays at its place in the ledger with its id, resource, user, time
    stamp and due date, and once returned it is never active again. *)
Theorem ledger_history_kept dateParse calls s i a :
  assignments s !! i = Some a ->
  exists a',
    assignments (runOps dateParse calls s) !! i = Some a' /\ laterOf a a'.
Proof.
  unfold runOps. revert s a.
  induction calls as [|c calls IH]; intros s a Ha; simpl.
  { exists a. split; [done|apply laterOf_refl]. }
  destruct (step_history dateParse s c i a Ha) as (b & Hb & Hab).
  destruct (IH _ b Hb) as (a' & Ha' & Hba').
  exists a'. split; [done|]. by eapply laterOf_trans.
Qed.

Lemma ledger_history_kept_witness :
  let a := Assignment.mk "a1" "P1" "alice" 1000 None active in
  let calls := [ (noMcp, OpReturnResource "P1" "alice" "a2" 3000);
                 (noMcp, OpRequestResource "P1" "alice" None "a3" 4000) ] in
  assignments bobWaitsP1 !! 0 = Some a
  /\ exists a',
       assignments (runOps (fun _ => None) calls bobWaitsP1) !! 0 = Some a'
       /\ laterOf a a'.
Proof.
  intros a calls.
  assert (H : assignments bobWaitsP1 !! 0 = Some a) by reflexivity.
  split; [exact H|].
  exact (ledger_history_kept (fun _ => None) calls bobWaitsP1 0 a H).
Defined.

(** With pairwise distinct assignment ids, a successful return flips
    exactly one assignment: the caller's earliest active assignment for the
    resource, in ledger order.  Every other assignment keeps its place and
    its content. *)
Theorem returnResource_releases_earliest rid uid newId now mcp s result :
  NoDup (map Assignment.id (assignments s)) ->
  resultOf (returnResource rid uid newId now mcp s) = Some result ->
  ReturnResult.ok result = true ->
  exists i a,
    assignments s !! i = Some a
    /\ holds rid uid a
    /\ (forall j b, j < i -> assignments s !! j = Some b -> ~ holds rid uid b)
    /\ assignments (store (returnResource rid uid newId now mcp s)) !! i
       = Some (markReturned a)
    /\ (forall j b, j ≠ i -> assignments s !! j = Some b ->
          assignments (store (returnResource rid uid newId now mcp s)) !! j
          = Some b).
Proof.
  intros Hnd Hres Hok.
  destruct (list_find (holds rid uid) (assignments s)) as [[i a]|] eqn:Hlf.
  2:{ assert (Hfind : Array_find (holds rid uid) (assignments s) = None)
        by (unfold Array_find; by rewrite Hlf).
      rewrite (returnResource_none_run _ _ _ _ _ _ Hfind) in Hres.
      injection Hres as <-. done. }
  assert (Hfind : Array_find (holds rid uid) (assignments s) = Some a)
    by (unfold Array_find; by rewrite Hlf).
  apply list_find_Some in Hlf as (Hi & Hholds & Hfirst).
  exists i, a. split; [done|]. split; [done|].
  split; [intros j b Hj Hb; by apply (Hfirst j b)|].
  assert (Hrel : released a (assignments s) !! i = Some (markReturned a)).
  { rewrite (released_lookup a _ i a Hi). by rewrite decide_True. }
  assert (Hother : forall j b, j ≠ i -> assignments s !! j = Some b ->
                     released a (assignments s) !! j = Some b).
  { intros j b Hne Hb. rewrite (released_lookup a _ j b Hb).
    rewrite decide_False; [done|]. intros Hid. apply Hne.
    change (NoDup (Assignment.id <$> assignments s)) in Hnd.
    eapply NoDup_lookup; [exact Hnd| |].
    - rewrite list_lookup_fmap, Hb. done.
    - rewrite list_lookup_fmap, Hi. simpl. by rewrite Hid. }
  destruct (returnResource_store rid uid newId now mcp s)
    as [Hs|[(x & Hx & _ & ->)|(x & next & r & Hx & _ & _ & ->)]].
  - destruct (getNextWaitlistEntry s rid) as [next|] eqn:Hnext.
    + destruct (Array_find (fun r => Resource.id r = rid) (resources s))
        as [r|] eqn:Hcat.
      * rewrite (returnResource_promote_run _ _ _ _ _ _ _ _ _
                   Hfind Hnext Hcat). simpl.
        split; [by apply lookup_app_l_Some|].
        intros j b Hne Hb. by apply lookup_app_l_Some, Hother.
      * by rewrite (returnResource_throw_run _ _ _ _ _ _ _ _
                      Hfind Hnext Hcat) in Hres.
    + rewrite (returnResource_plain_run _ _ _ _ _ _ _ Hfind Hnext). simpl.
      split; [done|]. intros j b Hne Hb. by apply Hother.
  - rewrite Hfind in Hx. injection Hx as <-. simpl. done.
  - rewrite Hfind in Hx. injection Hx as <-. simpl.
    split; [by apply lookup_app_l_Some|].
    intros j b Hne Hb. by apply lookup_app_l_Some, Hother.
Qed.

Lemma returnResource_releases_earliest_witness :
  let run := returnResource "P1" "alice" "a2" 3000 noMcp bobWaitsP1 in
  let result :=
    ReturnResult.mk true "Returned. Next in line (bob) was auto-assigned."
      (Some "bob") in
  (NoDup (map Assignment.id (assignments bobWaitsP1))
   /\ resultOf run = Some result
   /\ ReturnResult.ok result = true)
  /\ exists i a,
       assignments bobWaitsP1 !! i = Some a
       /\ holds "P1" "alice" a
       /\ (forall j b, j < i -> assignments bobWaitsP1 !! j = Some b ->
             ~ holds "P1" "alice" b)
       /\ assignments (store run) !! i = Some (markReturned a)
       /\ (forall j b, j ≠ i -> assignments bobWaitsP1 !! j = Some b ->
             assignments (store run) !! j = Some b).
Proof.
  intros run result.
  assert (Hnd : NoDup (map Assignment.id (assignments bobWaitsP1))).
  { vm_compute. apply NoDup_singleton. }
  assert (Hres : resultOf run = Some result) by (vm_compute; reflexivity).
  assert (Hok : ReturnResult.ok result = true) by reflexivity.
  split; [done|].
  exact (returnResource_releases_earliest "P1" "alice" "a2" 3000 noMcp
           bobWaitsP1 result Hnd Hres Hok).
Defined.

(** ** No unit idles while somebody waits *)

Lemma released_count_other rid a l :
  NoDup (map Assignment.id l) ->
  a ∈ l -> Assignment.resourceId a ≠ rid ->
  length (filter (activeFor rid) (released a l))
  = length (filter (activeFor rid) l).
Proof.
  intros Hnd Hin Hrid. induction l as [|x l IH]; [done|].
  simpl in Hnd. apply NoDup_cons in Hnd as [Hx Hnd]. simpl.
  apply elem_of_cons in Hin as [<-|Hin].
  - rewrite decide_True by done.
    rewrite (filter_cons_False _ (markReturned a)) by (intros [_ ?]; done).
    rewrite (filter_cons_False _ a) by (intros [? _]; done).
    by rewrite released_fresh.
  - assert (Hne : Assignment.id x ≠ Assignment.id a).
    { intros Heq. apply Hx. rewrite Heq.
      apply list_elem_of_In, in_map, list_elem_of_In, Hin. }
    rewrite decide_False by done. specialize (IH Hnd Hin).
    destruct (decide (activeFor rid x)).
    + rewrite !filter_cons_True by done. simpl. lia.
    + by rewrite !filter_cons_False.
Qed.

Section Conserving.
Variable dateParse : string -> option Z.

Lemma requestResource_noIdle rid uid due newId now mcp s :
  capacityOk s -> noIdleUnit s ->
  noIdleUnit (store (requestResource rid uid due newId now mcp s)).
Proof.
  intros Hcap Hidle.
  destruct (requestResource_store_cases rid uid due newId now mcp s)
    as [[_ ->]|[(r & Hfind & Hlt & ->)|(r & Hfind & Hge & ->)]]; [done| |].
  - intros rid' r' w Hfind' Hw Hwrid. simpl in *.
    pose proof (Hidle rid' r' w Hfind' Hw Hwrid) as Heq.
    rewrite activeAssignmentCount_eq in *. simpl. rewrite active_count_snoc.
    destruct (decide (activeFor rid' _)) as [[Hid _]|_]; [|lia].
    simpl in Hid. rewrite <- Hid in *. rewrite Hfind in Hfind'.
    injection Hfind' as <-. lia.
  - intros rid' r' w Hfind' Hw Hwrid. simpl in *.
    apply elem_of_app in Hw as [Hw|Hw]; [by apply (Hidle rid' r' w)|].
    apply list_elem_of_singleton in Hw as ->. simpl in Hwrid. subst rid'.
    rewrite Hfind in Hfind'. injection Hfind' as <-.
    pose proof (Hcap rid r Hfind) as Hle.
    change (activeAssignmentCount (with_waitlist s _) rid)
      with (activeAssignmentCount s rid).
    lia.
Qed.

Lemma returnResource_noIdle rid uid newId now mcp s :
  NoDup (map Assignment.id (assignments s)) -> noIdleUnit s ->
  noIdleUnit (store (returnResource rid uid newId now mcp s)).
Proof.
  intros Hnd Hidle.
  destruct (returnResource_store rid uid newId now mcp s)
    as [->|[(a & Hfind & Hnext & ->)|(a & next & r & Hfind & Hnext & _ & ->)]];
    [done| |].
  - apply Array_find_Some in Hfind as (Hin & Harid & _ & Hact).
    intros rid' r' w Hfind' Hw Hwrid. simpl in *.
    pose proof (Hidle rid' r' w Hfind' Hw Hwrid) as Heq.
    rewrite activeAssignmentCount_eq in *. simpl.
    rewrite released_count_other; [done..|].
    rewrite Harid. intros <-.
    by destruct (proj1 (getNextWaitlistEntry_None s rid) Hnext w Hw).
  - apply Array_find_Some in Hfind as (Hin & Harid & _ & Hact).
    intros rid' r' w Hfind' Hw Hwrid. simpl in *.
    apply list_elem_of_filter in Hw as [_ Hw].
    pose proof (Hidle rid' r' w Hfind' Hw Hwrid) as Heq.
    rewrite activeAssignmentCount_eq in *. simpl. rewrite active_count_snoc.
    destruct (decide (rid' = rid)) as [->|Hne].
    + rewrite decide_True by done.
      pose proof (released_count_exact a (assignments s) Hnd Hin Hact) as Hex.
      rewrite Harid in Hex. lia.
    + rewrite decide_False by (intros [? _]; done).
      rewrite released_count_other; [lia|done..|]. by rewrite Harid.
Qed.

Lemma step_noIdle s call :
  capacityOk s -> uniqueIds s -> noIdleUnit s ->
  noIdleUnit (step dateParse s call).
Proof.
  intros Hcap [Hnd _] Hidle. destruct call as [mcp op].
  pose proof (step_cases dateParse s mcp op) as Hstep.
  destruct op as [rid uid due newId now|rid uid newId now| | | | |now today];
    rewrite Hstep; try done.
  - by apply requestResource_noIdle.
  - by apply returnResource_noIdle.
  - destruct (checkReturnReminders_run dateParse now today mcp s)
      as (n' & _ & ->).
    done.
Qed.

Lemma runOps_noIdle calls : forall s,
  capacityOk s -> uniqueIds s -> noIdleUnit s ->
  NoDup (omap generatedId calls) ->
  (forall x, x ∈ idsOf s -> x ∉ omap generatedId calls) ->
  noIdleUnit (runOps dateParse calls s).
Proof.
  unfold runOps.
  induction calls as [|c calls IH]; intros s Hcap Huniq Hidle Hnd Hdisj;
    simpl; [done|].
  simpl in Hnd, Hdisj.
  assert (Hfresh : forall n, generatedId c = Some n -> n ∉ idsOf s).
  { intros n Hn Hin. apply (Hdisj n Hin). rewrite Hn. apply list_elem_of_here. }
  destruct (step_uniqueIds dateParse s c Huniq Hfresh) as [Huniq' Hids].
  apply IH; [by apply step_capacityOk|done|by apply step_noIdle| |].
  - destruct (generatedId c); [by apply NoDup_cons in Hnd as [_ ?]|done].
  - intros x Hx Hin. destruct (Hids x Hx) as [Hold|Hnew].
    + apply (Hdisj x Hold). destruct (generatedId c); [|done].
      by apply list_elem_of_further.
    + rewrite Hnew in Hnd. by apply NoDup_cons in Hnd as [? _].
Qed.
End Conserving.

(** Along any run from the seeded state in which [generateId()] never
    repeats, a resource somebody waits for has no spare unit: its active
    count equals its quantity. *)
Theorem reachable_no_idle_unit dateParse calls r w :
  NoDup (omap generatedId calls) ->
  r ∈ resources (runOps dateParse calls seededState) ->
  w ∈ waitlist (runOps dateParse calls seededState) ->
  WaitlistEntry.resourceId w = Resource.id r ->
  Z.of_nat (activeAssignmentCount (runOps dateParse calls seededState)
              (Resource.id r))
  = Resource.quantity r.
Proof.
  intros Hnd Hr Hw Hrid.
  assert (Hidle : noIdleUnit (runOps dateParse calls seededState)).
  { apply runOps_noIdle; [apply seededState_capacityOk| | |done|].
    - split; apply NoDup_nil_2.
    - intros rid r' w' _ Hw'. by apply elem_of_nil in Hw'.
    - intros x Hx. by apply elem_of_nil in Hx. }
  apply (Hidle (Resource.id r) r w); [|done..].
  rewrite runOps_resources in *. by apply seeded_lookup.
Qed.

Lemma reachable_no_idle_unit_witness :
  let calls :=
    [ (noMcp, OpRequestResource "P1" "alice" None "a1" 1000);
      (noMcp, OpRequestResource "P1" "bob" None "w1" 2000);
      (noMcp, OpRequestResource "P1" "carol" None "w2" 3000);
      (noMcp, OpReturnResource "P1" "alice" "a2" 4000) ] in
  let r := Resource.mk "P1" parking "Parking Spot 1" 1
             (Some {[ "location" := "Lot A" ]}) in
  let w := WaitlistEntry.mk "w2" "P1" "carol" 3000 None in
  (NoDup (omap generatedId calls)
   /\ r ∈ resources (runOps (fun _ => None) calls seededState)
   /\ w ∈ waitlist (runOps (fun _ => None) calls seededState)
   /\ WaitlistEntry.resourceId w = Resource.id r)
  /\ Z.of_nat (activeAssignmentCount
                 (runOps (fun _ => None) calls seededState) (Resource.id r))
     = Resource.quantity r.
Proof.
  intros calls r w.
  assert (H1 : NoDup (omap generatedId calls)).
  { compute_done. }
  assert (H2 : r ∈ resources (runOps (fun _ => None) calls seededState)).
  { vm_compute. apply list_elem_of_here. }
  assert (H3 : w ∈ waitlist (runOps (fun _ => None) calls seededState)).
  { vm_compute. apply list_elem_of_here. }
  split; [done|].
  exact (reachable_no_idle_unit (fun _ => None) calls r w H1 H2 H3 eq_refl).
Defined.

(** ** Requests, returns and [listMyAssignments] *)

(** A granted request shows at once in the caller's list: the id reported
    is the generated one and [listMyAssignments] then returns what it
    returned before followed by the new active assignment. *)
Theorem requestResource_granted_is_listed
    rid uid due newId now mcp mcp' s result assignmentId :
  resultOf (requestResource rid uid due newId now mcp s) = Some result ->
  RequestResult.assignmentId result = Some assignmentId ->
  assignmentId = newId
  /\ RequestResult.ok result = true
  /\ exists mine,
       resultOf (listMyAssignments uid mcp' s) = Some mine
       /\ resultOf (listMyAssignments uid mcp'
                      (store (requestResource rid uid due newId now mcp s)))
          = Some (mine ++ [Assignment.mk newId rid uid now due active]).
Proof.
  intros Hres Hid.
  destruct (Array_find (fun r => Resource.id r = rid) (resources s))
    as [r|] eqn:Hfind.
  - destruct (decide (Z.of_nat (activeAssignmentCount s rid)
                      < Resource.quantity r)%Z) as [Hlt|Hge].
    + rewrite (requestResource_granted_run _ _ _ _ _ _ _ _ Hfind Hlt) in *.
      injection Hres as <-. simpl in Hid. injection Hid as <-.
      split; [done|]. split; [done|]. eexists. split; [reflexivity|].
      unfold listMyAssignments, resultOf. agent_unfold. simpl.
      rewrite filter_app. by rewrite filter_cons_True.
    + rewrite (requestResource_queued_run _ _ _ _ _ _ _ _ Hfind Hge) in Hres.
      injection Hres as <-. done.
  - rewrite (requestResource_unknown_run _ _ _ _ _ _ _ Hfind) in Hres.
    injection Hres as <-. done.
Qed.

Lemma requestResource_granted_is_listed_witness :
  let result := RequestResult.mk true "Assigned Adobe CC to you."
                  (Some "a9") None in
  (resultOf (requestResource "L1" "alice" None "a9" 5000 noMcp aliceHoldsP1)
   = Some result
   /\ RequestResult.assignmentId result = Some "a9")
  /\ "a9" = "a9"
  /\ RequestResult.ok result = true
  /\ exists mine,
       resultOf (listMyAssignments "alice" noMcp aliceHoldsP1) = Some mine
       /\ resultOf (listMyAssignments "alice" noMcp
                      (store (requestResource "L1" "alice" None "a9" 5000
                                noMcp aliceHoldsP1)))
          = Some (mine ++ [Assignment.mk "a9" "L1" "alice" 5000 None active]).
Proof.
  intros result.
  assert (H1 : resultOf (requestResource "L1" "alice" None "a9" 5000 noMcp
                           aliceHoldsP1) = Some result)
    by (vm_compute; reflexivity).
  assert (H2 : RequestResult.assignmentId result = Some "a9") by reflexivity.
  split; [done|].
  exact (requestResource_granted_is_listed "L1" "alice" None "a9" 5000 noMcp
           noMcp aliceHoldsP1 result "a9" H1 H2).
Defined.

Lemma appendNotification_lookup notifications0 userId message v :
  appendNotification notifications0 userId message !! v
  = if decide (userId = v)
    then Some (default [] (notifications0 !! userId) ++ [message])
    else notifications0 !! v.
Proof. unfold appendNotification. apply lookup_insert. Qed.

(** When a return auto-assigns, the promoted user is told in-app and holds
    the unit: their notification queue is the old one followed by
    "<resource name> is now assigned to you.", nobody else's queue changes,
    and [listMyAssignments] for them contains the new active assignment. *)
Theorem returnResource_promoted_user_is_told
    rid uid newId now mcp mcp' s result promoted :
  resultOf (returnResource rid uid newId now mcp s) = Some result ->
  ReturnResult.autoAssigned result = Some promoted ->
  let s' := store (returnResource rid uid newId now mcp s) in
  exists r mine,
    Array_find (fun r => Resource.id r = rid) (resources s) = Some r
    /\ notifications s' !! promoted
       = Some (default [] (notifications s !! promoted)
                 ++ [Resource.name r +:+ " is now assigned to you."])
    /\ (forall v, v ≠ promoted -> notifications s' !! v = notifications s !! v)
    /\ resultOf (listMyAssignments promoted mcp' s') = Some mine
    /\ Assignment.mk newId rid promoted now None active ∈ mine.
Proof.
  intros Hres Hauto s'. subst s'.
  destruct (Array_find (holds rid uid) (assignments s)) as [a|] eqn:Hfind.
  2:{ rewrite (returnResource_none_run _ _ _ _ _ _ Hfind) in Hres.
      injection Hres as <-. done. }
  destruct (getNextWaitlistEntry s rid) as [next|] eqn:Hnext.
  2:{ rewrite (returnResource_plain_run _ _ _ _ _ _ _ Hfind Hnext) in Hres.
      injection Hres as <-. done. }
  destruct (Array_find (fun r => Resource.id r = rid) (resources s))
    as [r|] eqn:Hcat.
  2:{ by rewrite (returnResource_throw_run _ _ _ _ _ _ _ _ Hfind Hnext Hcat)
        in Hres. }
  rewrite (returnResource_promote_run _ _ _ _ _ _ _ _ _ Hfind Hnext Hcat) in *.
  injection Hres as <-. simpl in Hauto. injection Hauto as <-.
  exists r. eexists. split; [done|]. simpl.
  split; [by rewrite appendNotification_lookup, decide_True|].
  split.
  { intros v Hv. by rewrite appendNotification_lookup, decide_False. }
  split; [reflexivity|].
  apply list_elem_of_filter. split; [done|].
  apply elem_of_app. right. apply list_elem_of_here.
Qed.

Lemma returnResource_promoted_user_is_told_witness :
  let run := returnResource "P1" "alice" "a2" 3000 noMcp bobWaitsP1 in
  let result :=
    ReturnResult.mk true "Returned. Next in line (bob) was auto-assigned."
      (Some "bob") in
  (resultOf run = Some result /\ ReturnResult.autoAssigned result = Some "bob")
  /\ exists r mine,
       Array_find (fun r => Resource.id r = "P1") (resources bobWaitsP1)
       = Some r
       /\ notifications (store run) !! "bob"
          = Some (default [] (notifications bobWaitsP1 !! "bob")
                    ++ [Resource.name r +:+ " is now assigned to you."])
       /\ (forall v, v ≠ "bob" ->
             notifications (store run) !! v = notifications bobWaitsP1 !! v)
       /\ resultOf (listMyAssignments "bob" noMcp (store run)) = Some mine
       /\ Assignment.mk "a2" "P1" "bob" 3000 None active ∈ mine.
Proof.
  intros run result.
  assert (H1 : resultOf run = Some result) by (vm_compute; reflexivity).
  assert (H2 : ReturnResult.autoAssigned result = Some "bob") by reflexivity.
  split; [done|].
  exact (returnResource_promoted_user_is_told "P1" "alice" "a2" 3000 noMcp
           noMcp bobWaitsP1 result "bob" H1 H2).
Defined.

(** ** Clearing notifications *)

(** [clearNotifications] drops the whole queue of the user and nothing
    else: other users' queues and every other collection are as before, it
    never throws, and clearing again changes nothing. *)
Theorem clearNotifications_effect userId mcp mcp' s :
  let s' := store (clearNotifications userId mcp s) in
  completion (clearNotifications userId mcp s) = Normal tt
  /\ notifications s' !! userId = None
  /\ (forall v, v ≠ userId -> notifications s' !! v = notifications s !! v)
  /\ resources s' = resources s
  /\ assignments s' = assignments s
  /\ waitlist s' = waitlist s
  /\ utilizationLog s' = utilizationLog s
  /\ conversationByUser s' = conversationByUser s
  /\ store (clearNotifications userId mcp' s') = s'.
Proof.
  unfold clearNotifications. agent_unfold. simpl.
  split; [done|]. split; [apply lookup_delete_eq|].
  split; [intros v Hv; by apply lookup_delete_ne|].
  repeat split. unfold with_notifications. simpl. f_equal.
  apply map_eq. intros v. destruct (decide (userId = v)) as [->|Hne].
  - by rewrite !lookup_delete_eq.
  - by rewrite !lookup_delete_ne.
Qed.

(** ** Reminders *)

Section Reminders.
Variable dateParse : string -> option Z.

Lemma remindLoop_notifications now l notifications0 mcp s :
  completion (remindLoop dateParse now
                (now + REMINDER_HOURS_AHEAD * 60 * 60 * 1000)%Z l
                notifications0 mcp s)
  = Normal (foldl (fun n a => appendNotification n (Assignment.userId a)
                                (reminderMessage s a))
                  notifications0 (filter (dueSoon dateParse now) l)).
Proof.
  revert notifications0.
  induction l as [|a rest IH]; intros notifications0; [done|].
  simpl.
  destruct (Assignment.status a) eqn:Hst.
  2:{ rewrite filter_cons_False; [apply IH|].
      intros [Hact _]. congruence. }
  destruct (Assignment.dueReturnAt a) as [due|] eqn:Hdue.
  2:{ rewrite filter_cons_False; [apply IH|].
      intros (_ & d & Hd & _). congruence. }
  destruct (decide (due = "")) as [Hempty|Hne].
  { rewrite filter_cons_False; [apply IH|].
    intros (_ & d & Hd & Hd' & _). congruence. }
  destruct (outsideWindow dateParse now _ due) eqn:Hout.
  { rewrite filter_cons_False; [apply IH|].
    intros (_ & d & Hd & _ & Hin). congruence. }
  rewrite filter_cons_True by (split; [done|]; by exists due).
  agent_unfold. simpl.
  match goal with
  | |- context [notifyViaMcp ?u ?m ?p mcp s] =>
      destruct (notifyViaMcp_run u m p mcp s) as (Hc & Hs & _);
      rewrite Hc; simpl; rewrite Hs
  end.
  rewrite IH. unfold reminderMessage. by rewrite Hdue.
Qed.

Lemma checkReturnReminders_notifications now today mcp s :
  notifications (store (checkReturnReminders dateParse now today mcp s))
  = foldl (fun n a => appendNotification n (Assignment.userId a)
                        (reminderMessage s a))
          (notifications s) (filter (dueSoon dateParse now) (assignments s)).
Proof.
  unfold checkReturnReminders. agent_unfold. simpl.
  pose proof (remindLoop_notifications now (assignments s) (notifications s)
                mcp s) as Hc.
  rewrite Hc. simpl. done.
Qed.


Lemma reminders_lookup_none (msg : Assignment.t -> string) l notifications0 u :
  (forall a, a ∈ l -> Assignment.userId a ≠ u) ->
  foldl (fun n a => appendNotification n (Assignment.userId a) (msg a))
        notifications0 l !! u
  = notifications0 !! u.
Proof.
  revert notifications0.
  induction l as [|a rest IH]; intros notifications0 Hno; simpl; [done|].
  rewrite IH by (intros b Hb; apply Hno; by apply list_elem_of_further).
  rewrite appendNotification_lookup.
  rewrite decide_False; [done|]. apply Hno, list_elem_of_here.
Qed.



(** Nothing else is reminded: when each assignment of a user is returned,
    has no due date or an empty one, or is due before now or later than
    now plus 24 hours, the sweep leaves that user's queue untouched. *)
Theorem checkReturnReminders_skips_outside_window now today mcp s u :
  (forall a, a ∈ assignments s -> Assignment.userId a = u ->
     Assignment.status a = returned
     \/ Assignment.dueReturnAt a = None
     \/ Assignment.dueReturnAt a = Some ""
     \/ exists due t, Assignment.dueReturnAt a = Some due
          /\ dateParse due = Some t
          /\ (t < now \/ now + 86400000 < t)%Z) ->
  notifications (store (checkReturnReminders dateParse now today mcp s)) !! u
  = notifications s !! u.
Proof.
  intros Hskip. rewrite checkReturnReminders_notifications.
  apply reminders_lookup_none. intros a Ha Hu.
  apply list_elem_of_filter in Ha as [(Hact & d & Hd & Hne & Hout) Ha].
  destruct (Hskip a Ha Hu) as [Hr|[Hn|[He|(due & t & Hdue & Ht & Hlate)]]];
    [congruence..|].
  rewrite Hdue in Hd. injection Hd as <-.
  unfold outsideWindow, REMINDER_HOURS_AHEAD in Hout. rewrite Ht in Hout.
  apply orb_false_iff in Hout as [H1 H2].
  apply bool_decide_eq_false in H1, H2. lia.
Qed.
End Reminders.


Lemma checkReturnReminders_skips_outside_window_witness :
  (forall a, a ∈ assignments aliceHoldsP1 -> Assignment.userId a = "alice" ->
     Assignment.status a = returned
     \/ Assignment.dueReturnAt a = None
     \/ Assignment.dueReturnAt a = Some ""
     \/ exists due t, Assignment.dueReturnAt a = Some due
          /\ (fun _ : string => @None Z) due = Some t
          /\ (t < 5000 \/ 5000 + 86400000 < t)%Z)
  /\ notifications
       (store (checkReturnReminders (fun _ => None) 5000 "2026-03-01" noMcp
                 aliceHoldsP1)) !! "alice"
     = notifications aliceHoldsP1 !! "alice".
Proof.
  assert (H : forall a, a ∈ assignments aliceHoldsP1 ->
     Assignment.userId a = "alice" ->
     Assignment.status a = returned
     \/ Assignment.dueReturnAt a = None
     \/ Assignment.dueReturnAt a = Some ""
     \/ exists due t, Assignment.dueReturnAt a = Some due
          /\ (fun _ : string => @None Z) due = Some t
          /\ (t < 5000 \/ 5000 + 86400000 < t)%Z).
  { intros a Ha _. right; left.
    assert (Hl : assignments aliceHoldsP1
                 = [Assignment.mk "a1" "P1" "alice" 1000 None active])
      by (vm_compute; reflexivity).
    rewrite Hl in Ha. by apply list_elem_of_singleton in Ha as ->. }
  split; [exact H|].
  exact (checkReturnReminders_skips_outside_window (fun _ => None) 5000
           "2026-03-01" noMcp aliceHoldsP1 "alice" H).
Defined.

(** ** Date strings *)

Lemma string_leb_refl (d : string) : String.leb d d = true.
Proof.
  unfold String.leb. pose proof (String.compare_antisym d d) as H.
  by destruct (String.compare d d).
Qed.

Lemma string_compare_trans (a : string) : forall b c,
  String.compare a b ≠ Gt -> String.compare b c ≠ Gt ->
  String.compare a c ≠ Gt.
Proof.
  induction a as [|x a IH]; intros [|y b] [|z c]; simpl; try done.
  unfold Ascii.compare.
  destruct (N.compare_spec (Ascii.N_of_ascii x) (Ascii.N_of_ascii y)) as [E1|L1|G1];
    destruct (N.compare_spec (Ascii.N_of_ascii y) (Ascii.N_of_ascii z))
      as [E2|L2|G2];
    destruct (N.compare_spec (Ascii.N_of_ascii x) (Ascii.N_of_ascii z))
      as [E3|L3|G3];
    try done; try lia.
  apply IH.
Qed.

Lemma string_leb_trans (a b c : string) :
  String.leb a b = true -> String.leb b c = true -> String.leb a c = true.
Proof.
  unfold String.leb. intros H1 H2.
  pose proof (string_compare_trans a b c) as H.
  destruct (String.compare a b), (String.compare b c), (String.compare a c);
    try done; exfalso; by apply H.
Qed.

(** ** Querying the utilization log *)

Lemma getUtilization_result rid dateFrom dateTo today mcp s :
  resultOf (getUtilization rid dateFrom dateTo today mcp s)
  = Some (map recordOf
            (filter (fun e =>
                       resourceMatches rid e
                       /\ String.leb (default today dateFrom)
                            (UtilizationLogEntry.date e) = true
                       /\ String.leb (UtilizationLogEntry.date e)
                            (default today dateTo) = true)
                    (utilizationLog s))).
Proof. reflexivity. Qed.

Lemma getUtilization_today rid today mcp s :
  resultOf (getUtilization rid None None today mcp s)
  = Some (map recordOf
            (filter (fun e => resourceMatches rid e
                              /\ UtilizationLogEntry.date e = today)
                    (utilizationLog s))).
Proof.
  rewrite getUtilization_result. do 2 f_equal. apply list_filter_iff.
  intros e. simpl. split.
  - intros (Hr & H1 & H2). split; [done|]. symmetry.
    by apply String.leb_antisym.
  - intros (Hr & <-). split; [done|]. split; apply string_leb_refl.
Qed.

(** Without bounds the query answers for today only: it returns, in log
    order, the records of exactly the entries dated [today] that pass the
    resource filter. *)
Theorem getUtilization_defaults_to_today rid today mcp s :
  resultOf (getUtilization rid None None today mcp s)
  = Some (map recordOf
            (filter (fun e => resourceMatches rid e
                              /\ UtilizationLogEntry.date e = today)
                    (utilizationLog s))).
Proof. apply getUtilization_today. Qed.

(** An empty [resourceId] is falsy in the filter: the query answers as if
    no resource had been given. *)
Theorem getUtilization_empty_resourceId dateFrom dateTo today mcp s :
  getUtilization (Some "") dateFrom dateTo today mcp s
  = getUtilization None dateFrom dateTo today mcp s.
Proof.
  unfold getUtilization. agent_unfold. simpl. do 3 f_equal.
  apply list_filter_iff. intros e. split; intros (_ & H); (split; [|done]).
  - by left.
  - right. by left.
Qed.

(** Both bounds are inclusive and compare as strings, so a range whose
    upper bound sorts before its lower bound selects nothing. *)
Theorem getUtilization_inverted_range rid from to today mcp s :
  String.ltb to from = true ->
  resultOf (getUtilization rid (Some from) (Some to) today mcp s) = Some [].
Proof.
  intros Hlt. rewrite getUtilization_result. simpl. f_equal.
  rewrite filter_none; [done|].
  intros e _ (_ & H1 & H2).
  pose proof (string_leb_trans _ _ _ H1 H2) as Hle.
  unfold String.ltb in Hlt. unfold String.leb in Hle.
  rewrite String.compare_antisym in Hle.
  by destruct (String.compare to from).
Qed.

Lemma getUtilization_inverted_range_witness :
  String.ltb "2026-02-28" "2026-03-01" = true
  /\ resultOf (getUtilization None (Some "2026-03-01") (Some "2026-02-28")
                 "2026-03-01" noMcp sampleLogState) = Some [].
Proof.
  assert (H : String.ltb "2026-02-28" "2026-03-01" = true) by reflexivity.
  split; [exact H|].
  exact (getUtilization_inverted_range None "2026-03-01" "2026-02-28"
           "2026-03-01" noMcp sampleLogState H).
Defined.

(** ** The first snapshot of a day, read back *)




(** ** Utilization stays between 0 and 1 *)

Lemma snapshot_sound s date rs : forall log,
  logSound log ->
  (forall r, r ∈ rs ->
     (Z.of_nat (activeAssignmentCount s (Resource.id r))
      <= Resource.quantity r)%Z) ->
  logSound (foldl (logResource s date) log rs).
Proof.
  induction rs as [|r rs IH]; intros log Hlog Hcap; simpl; [done|].
  apply IH; [|intros x Hx; apply Hcap; by apply list_elem_of_further].
  unfold logResource. destruct (Array_some _ log); [done|].
  intros e He. apply elem_of_app in He as [He|He]; [by apply Hlog|].
  apply list_elem_of_singleton in He as ->. simpl.
  pose proof (Hcap r (list_elem_of_here _ _)). lia.
Qed.

Lemma step_logSound dateParse s call :
  capacityOk s -> resources s = DEFAULT_RESOURCES ->
  logSound (utilizationLog s) ->
  logSound (utilizationLog (step dateParse s call)).
Proof.
  intros Hcap Hres Hlog. destruct call as [mcp op]. rewrite step_log.
  destruct op; try done. apply snapshot_sound; [done|].
  intros r Hr. apply Hcap. rewrite Hres in *. by apply seeded_lookup.
Qed.

Lemma reachable_logSound dateParse calls :
  logSound (utilizationLog (runOps dateParse calls seededState)).
Proof.
  assert (Hgen : forall s, capacityOk s -> resources s = DEFAULT_RESOURCES ->
                   logSound (utilizationLog s) ->
                   logSound (utilizationLog (runOps dateParse calls s))).
  { unfold runOps. induction calls as [|c calls IH]; intros s Hcap Hres Hlog;
      simpl; [done|].
    apply IH; [by apply step_capacityOk|by rewrite step_resources|].
    by apply step_logSound. }
  apply Hgen; [apply seededState_capacityOk|done|].
  intros e He. by apply elem_of_nil in He.
Qed.

Lemma utilizationOf_bounds e :
  (0 <= UtilizationLogEntry.allocated e <= UtilizationLogEntry.total e)%Z ->
  (0 <= utilizationOf e)%Q /\ (utilizationOf e <= 1)%Q.
Proof.
  intros [Hlo Hhi]. unfold utilizationOf.
  destruct (decide (0 < UtilizationLogEntry.total e)%Z) as [Hpos|_].
  2:{ split; [apply Qle_refl|done]. }
  assert (Hq : (0 < inject_Z (UtilizationLogEntry.total e))%Q).
  { change 0%Q with (inject_Z 0). by rewrite <- Zlt_Qlt. }
  split.
  - apply Qle_shift_div_l; [done|]. rewrite Qmult_0_l.
    change 0%Q with (inject_Z 0). by rewrite <- Zle_Qle.
  - apply Qle_shift_div_r; [done|]. rewrite Qmult_1_l.
    by rewrite <- Zle_Qle.
Qed.

(** In every state reached from the seeded state, whatever the query, every
    record [getUtilization] returns has [0 <= allocated <= total] and a
    utilization between 0 and 1. *)
Theorem reachable_utilization_bounds
    dateParse calls rid dateFrom dateTo today mcp rec :
  rec ∈ default []
          (resultOf (getUtilization rid dateFrom dateTo today mcp
                       (runOps dateParse calls seededState))) ->
  (0 <= UtilizationRecord.allocated rec <= UtilizationRecord.total rec)%Z
  /\ (0 <= UtilizationRecord.utilization rec)%Q
  /\ (UtilizationRecord.utilization rec <= 1)%Q.
Proof.
  rewrite getUtilization_result. simpl. intros Hrec.
  apply list_elem_of_In, in_map_iff in Hrec as (e & <- & He).
  apply list_elem_of_In, list_elem_of_filter in He as [_ He].
  pose proof (reachable_logSound dateParse calls e He) as Hsound.
  split; [done|]. by apply utilizationOf_bounds.
Qed.

Lemma reachable_utilization_bounds_witness :
  let calls :=
    [ (noMcp, OpRequestResource "E1" "alice" None "a1" 1000);
      (noMcp, OpCheckReturnReminders 2000 "2026-03-01") ] in
  let rec := UtilizationRecord.mk "E1" "2026-03-01" 1 2 (1 # 2) in
  rec ∈ default []
          (resultOf (getUtilization (Some "E1") None None "2026-03-01" noMcp
                       (runOps (fun _ => None) calls seededState)))
  /\ (0 <= UtilizationRecord.allocated rec <= UtilizationRecord.total rec)%Z
  /\ (0 <= UtilizationRecord.utilization rec)%Q
  /\ (UtilizationRecord.utilization rec <= 1)%Q.
Proof.
  intros calls rec.
  assert (H : rec ∈ default []
                (resultOf (getUtilization (Some "E1") None None "2026-03-01"
                             noMcp
                             (runOps (fun _ => None) calls seededState)))).
  { vm_compute. apply list_elem_of_here. }
  split; [exact H|].
  exact (reachable_utilization_bounds (fun _ => None) calls (Some "E1") None
           None "2026-03-01" noMcp rec H).
Defined.

(** ** Listing resources *)

(** In every state reached from the seeded state, [listResources] returns
    the catalog resources of the requested type (all of them without a
    type), in catalog order, each with [available] equal to its quantity
    minus its active count, and that number is never negative and never
    above the quantity. *)
Theorem reachable_listResources dateParse calls type mcp :
  let s := runOps dateParse calls seededState in
  exists listed,
    listResources type mcp s = mkRun (Normal listed) s []
    /\ map fst listed
       = match type with
         | Some ty => filter (fun r => Resource.type r = ty) DEFAULT_RESOURCES
         | None => DEFAULT_RESOURCES
         end
    /\ Forall (fun item =>
                 item.2 = (Resource.quantity item.1
                           - Z.of_nat (activeAssignmentCount s
                                         (Resource.id item.1)))%Z
                 /\ (0 <= item.2 <= Resource.quantity item.1)%Z)
              listed.
Proof.
  intros s.
  assert (Hres : resources s = DEFAULT_RESOURCES) by apply runOps_resources.
  assert (Hcap : capacityOk s)
    by apply runOps_capacityOk, seededState_capacityOk.
  unfold listResources. agent_unfold. simpl. eexists. split; [reflexivity|].
  rewrite Hres. split.
  - rewrite map_map. simpl. by rewrite map_id.
  - apply Forall_forall. intros [r avail] Hin.
    apply list_elem_of_In, in_map_iff in Hin as (r' & [= <- <-] & Hr).
    simpl. split; [done|].
    assert (Hdef : r' ∈ DEFAULT_RESOURCES).
    { apply list_elem_of_In in Hr. destruct type; [|done].
      by apply list_elem_of_filter in Hr as [_ ?]. }
    assert (Hle : (Z.of_nat (activeAssignmentCount s (Resource.id r'))
                   <= Resource.quantity r')%Z).
    { apply Hcap. rewrite Hres. by apply seeded_lookup. }
    lia.
Qed.

(** ** The bounded conversation history *)







(** ** Request and return, back to back *)

(** A granted request followed by a return of the same resource by the
    same user, while nobody waits for it, succeeds without auto-assignment
    and brings the active count of the resource back to what it was; the
    waitlist is untouched.  The generated id must be new to the ledger,
    whose ids are pairwise distinct. *)
Theorem request_then_return rid uid due newId now newId' now' mcp mcp' s result :
  NoDup (map Assignment.id (assignments s)) ->
  newId ∉ map Assignment.id (assignments s) ->
  (forall w, w ∈ waitlist s -> WaitlistEntry.resourceId w ≠ rid) ->
  resultOf (requestResource rid uid due newId now mcp s) = Some result ->
  RequestResult.ok result = true ->
  let s1 := store (requestResource rid uid due newId now mcp s) in
  let back := returnResource rid uid newId' now' mcp' s1 in
  resultOf back = Some (ReturnResult.mk true "Returned successfully." None)
  /\ activeAssignmentCount (store back) rid = activeAssignmentCount s rid
  /\ waitlist (store back) = waitlist s.
Proof.
  intros Hnd Hfresh Hnowait Hres Hok s1 back. subst back s1.
  destruct (Array_find (fun r => Resource.id r = rid) (resources s))
    as [r|] eqn:Hfind.
  2:{ rewrite (requestResource_unknown_run _ _ _ _ _ _ _ Hfind) in Hres.
      injection Hres as <-. done. }
  destruct (decide (Z.of_nat (activeAssignmentCount s rid)
                    < Resource.quantity r)%Z) as [Hlt|Hge].
  2:{ rewrite (requestResource_queued_run _ _ _ _ _ _ _ _ Hfind Hge) in Hres.
      injection Hres as <-. done. }
  rewrite (requestResource_granted_run _ _ _ _ _ _ _ _ Hfind Hlt).
  cbn [store].
  set (new := Assignment.mk newId rid uid now due active).
  set (s1 := with_assignments s (assignments s ++ [new])).
  assert (Hnd1 : NoDup (map Assignment.id (assignments s1))).
  { simpl. rewrite map_app. by apply NoDup_snoc_fresh. }
  assert (Hnew : new ∈ assignments s1).
  { simpl. apply elem_of_app. right. apply list_elem_of_here. }
  destruct (Array_find_is_Some (holds rid uid) (assignments s1) new Hnew)
    as [a Ha]; [done|].
  assert (Hnext : getNextWaitlistEntry s1 rid = None)
    by (by apply getNextWaitlistEntry_None).
  rewrite (returnResource_plain_run _ _ _ _ _ _ _ Ha Hnext). cbn [store].
  split; [done|]. split; [|done].
  apply Array_find_Some in Ha as (Hin & Harid & _ & Hact).
  pose proof (released_count_exact a (assignments s1) Hnd1 Hin Hact) as Hex.
  rewrite Harid in Hex. rewrite !activeAssignmentCount_eq.
  change (assignments (with_assignments s1 (released a (assignments s1))))
    with (released a (assignments s1)).
  assert (Hs1 : length (filter (activeFor rid) (assignments s1))
                = length (filter (activeFor rid) (assignments s)) + 1).
  { simpl. rewrite active_count_snoc. by rewrite decide_True. }
  lia.
Qed.

Lemma request_then_return_witness :
  let result := RequestResult.mk true "Assigned Adobe CC to you."
                  (Some "a9") None in
  let s1 := store (requestResource "L1" "alice" None "a9" 5000 noMcp
                     aliceHoldsP1) in
  let back := returnResource "L1" "alice" "a10" 6000 noMcp s1 in
  (NoDup (map Assignment.id (assignments aliceHoldsP1))
   /\ ("a9" ∉ map Assignment.id (assignments aliceHoldsP1))
   /\ (forall w, w ∈ waitlist aliceHoldsP1 -> WaitlistEntry.resourceId w ≠ "L1")
   /\ resultOf (requestResource "L1" "alice" None "a9" 5000 noMcp aliceHoldsP1)
      = Some result
   /\ RequestResult.ok result = true)
  /\ resultOf back = Some (ReturnResult.mk true "Returned successfully." None)
  /\ activeAssignmentCount (store back) "L1"
     = activeAssignmentCount aliceHoldsP1 "L1"
  /\ waitlist (store back) = waitlist aliceHoldsP1.
Proof.
  intros result s1 back.
  assert (H1 : NoDup (map Assignment.id (assignments aliceHoldsP1)))
    by compute_done.
  assert (H2 : "a9" ∉ map Assignment.id (assignments aliceHoldsP1))
    by compute_done.
  assert (H3 : forall w, w ∈ waitlist aliceHoldsP1 ->
                 WaitlistEntry.resourceId w ≠ "L1").
  { intros w Hw. by apply elem_of_nil in Hw. }
  assert (H4 : resultOf (requestResource "L1" "alice" None "a9" 5000 noMcp
                           aliceHoldsP1) = Some result)
    by (vm_compute; reflexivity).
  split; [done|].
  exact (request_then_return "L1" "alice" None "a9" 5000 "a10" 6000 noMcp
           noMcp aliceHoldsP1 result H1 H2 H3 H4 eq_refl).
Defined.

(** ** A sweep with nothing due *)

Lemma remindLoop_quiet dateParse now l notifications0 mcp s :
  (forall a, a ∈ l -> ~ dueSoon dateParse now a) ->
  remindLoop dateParse now (now + REMINDER_HOURS_AHEAD * 60 * 60 * 1000)%Z l
    notifications0 mcp s
  = mkRun (Normal notifications0) s [].
Proof.
  induction l as [|a rest IH]; intros Hno; [done|].
  assert (Hrest : forall b, b ∈ rest -> ~ dueSoon dateParse now b)
    by (intros b Hb; apply Hno; by apply list_elem_of_further).
  pose proof (Hno a (list_elem_of_here _ _)) as Ha. simpl.
  destruct (Assignment.status a) eqn:Hst; [|by apply IH].
  destruct (Assignment.dueReturnAt a) as [due|] eqn:Hdue; [|by apply IH].
  destruct (decide (due = "")); [by apply IH|].
  destruct (outsideWindow dateParse now _ due) eqn:Hout; [by apply IH|].
  destruct Ha. split; [done|]. by exists due.
Qed.

(** When the loop skips every assignment, the sweep makes no tool call,
    logs nothing and leaves the in-app notifications as they were: its
    whole trace is the one commit that carries the day's snapshot. *)
Theorem checkReturnReminders_quiet dateParse now today mcp s :
  (forall a, a ∈ assignments s -> ~ dueSoon dateParse now a) ->
  let run := checkReturnReminders dateParse now today mcp s in
  events run = [EvSetState (store run)]
  /\ notifications (store run) = notifications s.
Proof.
  intros Hno run. subst run. unfold checkReturnReminders. agent_unfold.
  cbn [completion store events].
  rewrite (remindLoop_quiet dateParse now (assignments s) (notifications s)
             mcp s Hno).
  done.
Qed.

Lemma checkReturnReminders_quiet_witness :
  let run := checkReturnReminders (fun _ => None) 5000 "2026-03-01" slackReady
               aliceHoldsP1 in
  (forall a, a ∈ assignments aliceHoldsP1 ->
     ~ dueSoon (fun _ => None) 5000 a)
  /\ events run = [EvSetState (store run)]
  /\ notifications (store run) = notifications aliceHoldsP1.
Proof.
  intros run.
  assert (H : forall a, a ∈ assignments aliceHoldsP1 ->
                ~ dueSoon (fun _ => None) 5000 a).
  { apply Forall_forall. compute_done. }
  split; [exact H|].
  exact (checkReturnReminders_quiet (fun _ => None) 5000 "2026-03-01"
           slackReady aliceHoldsP1 H).
Defined.
